(** * The GPT-style Universal Transformer assembler of [GPTModel.py]

    [universal_transformer_gpt_model] builds no numbers: it constructs layer
    objects of Keras and keras-transformer and wires them into a graph.  The
    embedding below therefore records what the routine does to the library:
    which objects it constructs (with which arguments), which layer it calls
    on which symbolic tensors, and in which order.  The library itself stays
    uninterpreted; a layer call yields fresh symbolic tensors named after the
    graph node that produced them, exactly as a Keras tensor carries its
    [_keras_history]. *)

From Stdlib Require Import ZArith List Bool Lia.
From Stdlib Require Import Floats.PrimFloat.
From stdpp Require Import base gmap strings list.

Set Warnings "-inexact-float".
Local Open Scope Z_scope.

(** ** Python values *)

(** An object is named by the order of its construction. *)
Definition objid := nat.

(** The dynamically typed values that reach the code from outside. *)
Inductive pyval :=
| PyNone
| PyBool (b : bool)
| PyInt (z : Z)
| PyFloat (f : float)
| PyStr (s : string)
| PyObj (o : objid).

(** Python's truth value testing; a float is false exactly when it compares
    equal to zero (so [-0.0] is false and NaN is true). *)
Definition truthy (v : pyval) : bool :=
  match v with
  | PyNone => false
  | PyBool b => b
  | PyInt z => negb (z =? 0)
  | PyFloat f => negb (PrimFloat.eqb f 0%float)
  | PyStr s => negb (String.eqb s "")
  | PyObj _ => true
  end.

(** ** Symbolic tensors *)

(** [LayerOut n k] is output number [k] of graph node [n] (one node per layer
    call); the other constructors are the backend operations the routine uses
    for the confidence penalty. *)
Inductive tensor :=
| LayerOut (node : nat) (index : nat)
| K_log (x : tensor)
| Mul (x y : tensor)
| ScalarMul (c : float) (x : tensor)
| K_sum (x : tensor) (axis : Z)
| K_mean (x : tensor).

(** ** Library objects, with the constructor arguments the code passes *)

Inductive pyobject :=
| InputLayer (shape : pyval) (dtype name : string)
| L2 (l2 : pyval)
| ReusableEmbedding (input_dim : pyval) (output_dim : Z) (input_length : pyval)
    (name : string) (embeddings_regularizer : option objid)
| TiedOutputEmbedding (projection_regularizer : option objid)
    (projection_dropout : float) (name : string)
| Conv1D (filters kernel_size : Z) (padding activation kernel_initializer name : string)
| TransformerCoordinateEmbedding (max_transformer_depth : Z) (name : string)
| TransformerBlock (name : string) (num_heads : Z)
    (residual_dropout attention_dropout : float)
    (use_masking vanilla_wiring agglomerative_attention : bool)
| TransformerACT (name : string)
| Softmax (name : string)
| Model (inputs outputs : list tensor)
| Session (allow_growth : bool) (global_jit_level : string).

(** ** Effects *)

Inductive event :=
| New (o : objid) (what : pyobject)
| Call (node : nat) (layer : objid) (inputs : list tensor) (step : option Z)
| Finalize (layer : objid)
| Backend (t : tensor)
| AddLoss (model : objid) (loss : tensor)
| Summary (model : objid)
| SetSession (session : objid).

(** The interpreter state the routine acts on: the configured Keras backend,
    the counters that name the next object and graph node, and everything done
    so far, oldest first. *)
Record world := {
  backend : string;
  next_obj : nat;
  next_node : nat;
  trace : list event
}.

Definition M (A : Type) : Type := world -> A * world.

#[global] Instance M_ret : MRet M := fun A x w => (x, w).
#[global] Instance M_bind : MBind M :=
  fun A B f m w => let '(x, w') := m w in f x w'.

Definition emit (e : event) : M unit :=
  fun w => (tt, {| backend := backend w; next_obj := next_obj w;
                   next_node := next_node w; trace := trace w ++ [e] |}).

(** Constructing an object gives it the next free identity. *)
Definition new (what : pyobject) : M objid :=
  fun w => (next_obj w,
            {| backend := backend w; next_obj := S (next_obj w);
               next_node := next_node w;
               trace := trace w ++ [New (next_obj w) what] |}).

(** Calling a layer adds one node to the graph; the caller takes the node's
    outputs apart. *)
Definition call (layer : objid) (inputs : list tensor) (step : option Z) : M nat :=
  fun w => (next_node w,
            {| backend := backend w; next_obj := next_obj w;
               next_node := S (next_node w);
               trace := trace w ++ [Call (next_node w) layer inputs step] |}).

(** A layer with a single output, and one returning a pair. *)
Definition call1 (layer : objid) (inputs : list tensor) (step : option Z) : M tensor :=
  n ← call layer inputs step; mret (LayerOut n 0).

Definition call2 (layer : objid) (inputs : list tensor) : M (tensor * tensor) :=
  n ← call layer inputs None; mret (LayerOut n 0, LayerOut n 1).

(** [keras.layers.Input]: an input layer and the tensor of its only node. *)
Definition Input (shape : pyval) (dtype name : string) : M tensor :=
  l ← new (InputLayer shape dtype name); call1 l [] None.

Definition finalize (layer : objid) : M unit := emit (Finalize layer).
Definition add_loss (model : objid) (loss : tensor) : M unit := emit (AddLoss model loss).
Definition summary (model : objid) : M unit := emit (Summary model).

(** A backend operation adds its result tensor to the graph. *)
Definition backend_op (t : tensor) : M tensor :=
  _ ← emit (Backend t); mret t.

(** [for i in range(n)], the loop variables threaded as [s]. *)
Fixpoint for_range {S : Type} (count : nat) (i : Z) (body : Z -> S -> M S) (s : S) : M S :=
  match count with
  | O => mret s
  | Datatypes.S count' => s' ← body i s; for_range count' (i + 1) body s'
  end.

Definition for_in_range {S : Type} (n : Z) (body : Z -> S -> M S) (s : S) : M S :=
  for_range (Z.to_nat n) 0 body s.

(** ** [universal_transformer_gpt_model] *)

Record hyperparams := {
  max_seq_length : pyval;
  vocabulary_size : pyval;
  word_embedding_size : Z;
  transformer_depth : Z;
  num_heads : Z;
  transformer_dropout : float;
  embedding_dropout : float;
  l2_reg_penalty : pyval;
  confidence_penalty_weight : float;
  agglomerative_attention : bool;
  use_convolutions : bool;
  use_coordinate_embeddings : bool;
  convolution_width : Z;
  penalize_confidence : bool
}.

(** The objects made on source lines 69-97, under the names of the local
    variables that hold them. *)
Record layers := {
  word_ids : tensor;
  l2_regularizer : option objid;
  embedding_layer : objid;
  output_layer : objid;
  conv_layer : objid;
  coordinate_embedding_layer : objid;
  transformer_block : objid;
  transformer_act_layer : objid;
  output_softmax_layer : objid
}.

(** Source lines 69-97: every object is constructed before any wiring. *)
Definition construct_layers (h : hyperparams) : M layers :=
  word_ids ← Input (max_seq_length h) "int32" "word_ids";
  l2_regularizer ←
    (if truthy (l2_reg_penalty h)
     then r ← new (L2 (l2_reg_penalty h)); mret (Some r)
     else mret None);
  embedding_layer ←
    new (ReusableEmbedding (vocabulary_size h) (word_embedding_size h)
           (max_seq_length h) "bpe_embeddings" l2_regularizer);
  output_layer ←
    new (TiedOutputEmbedding l2_regularizer (embedding_dropout h)
           "word_prediction_logits");
  conv_layer ←
    new (Conv1D (word_embedding_size h) (convolution_width h)
           "causal" "relu" "he_uniform" "convolution");
  coordinate_embedding_layer ←
    new (TransformerCoordinateEmbedding (transformer_depth h) "coordinate_embedding");
  transformer_block ←
    new (TransformerBlock "transformer" (num_heads h)
           (transformer_dropout h) (transformer_dropout h)
           true false (agglomerative_attention h));
  transformer_act_layer ← new (TransformerACT "adaptive_computation_time");
  output_softmax_layer ← new (Softmax "word_predictions");
  mret {| word_ids := word_ids;
          l2_regularizer := l2_regularizer;
          embedding_layer := embedding_layer;
          output_layer := output_layer;
          conv_layer := conv_layer;
          coordinate_embedding_layer := coordinate_embedding_layer;
          transformer_block := transformer_block;
          transformer_act_layer := transformer_act_layer;
          output_softmax_layer := output_softmax_layer |}.

(** The body of the depth loop, source lines 103-108. *)
Definition depth_step (h : hyperparams) (ls : layers)
    (i : Z) (vars : tensor * tensor) : M (tensor * tensor) :=
  let '(next_step_input, act_output) := vars in
  next_step_input ←
    (if use_convolutions h
     then call1 (conv_layer ls) [next_step_input] None
     else mret next_step_input);
  next_step_input ←
    (if use_coordinate_embeddings h
     then call1 (coordinate_embedding_layer ls) [next_step_input] (Some i)
     else mret next_step_input);
  next_step_input ← call1 (transformer_block ls) [next_step_input] None;
  call2 (transformer_act_layer ls) [next_step_input].

(** Source lines 99-123: the wiring of those objects into a model. *)
Definition wire (h : hyperparams) (ls : layers) : M objid :=
  '(next_step_input, embedding_matrix) ← call2 (embedding_layer ls) [word_ids ls];
  let act_output := next_step_input in

  '(next_step_input, act_output) ←
    for_in_range (transformer_depth h) (depth_step h ls)
      (next_step_input, act_output);

  _ ← finalize (transformer_act_layer ls);
  let next_step_input := act_output in
  logits ← call1 (output_layer ls) [next_step_input; embedding_matrix] None;
  word_predictions ← call1 (output_softmax_layer ls) [logits] None;
  model ← new (Model [word_ids ls] [word_predictions]);
  log_predictions ← backend_op (K_log word_predictions);
  product ← backend_op (Mul word_predictions log_predictions);
  row_sums ← backend_op (K_sum product (-1));
  weighted ← backend_op (ScalarMul (confidence_penalty_weight h) row_sums);
  confidence_penalty ← backend_op (K_mean weighted);
  _ ← (if penalize_confidence h
       then add_loss model confidence_penalty
       else mret tt);
  mret model.

Definition universal_transformer_gpt_model (h : hyperparams) : M objid :=
  ls ← construct_layers h; wire h ls.

(** ** The pipeline stage *)

(** [maybe_setup_tensorflow]: nothing unless the backend is TensorFlow; then a
    session with growing GPU memory and JIT level [ON_1] is installed. *)
Definition maybe_setup_tensorflow : M unit :=
  fun w =>
    if negb (String.eqb (backend w) "tensorflow") then (tt, w)
    else (session ← new (Session true "ON_1"); emit (SetSession session)) w.

Inductive pyerror :=
| KeyError (key : string).

(** What a call of the stage leaves behind: an exception, or the updated
    scope together with the interpreter state. *)
Inductive outcome :=
| Raise (e : pyerror)
| Return (scope : gmap string pyval) (w : world).

Module GPTModel.

(** [self.arguments], typed as [ARGS] declares them. *)
Record arguments := {
  width : Z;
  depth : Z;
  use_convolutions : bool;
  use_agglomeration : bool;
  convolution_width : Z;
  num_heads : Z;
  print_summary : bool
}.

(** The defaults of [ARGS]. *)
Definition ARGS : arguments :=
  {| width := 64; depth := 6; use_convolutions := false;
     use_agglomeration := false; convolution_width := 8; num_heads := 8;
     print_summary := false |}.

(** The keyword arguments of the call on source lines 152-161; what the call
    leaves out takes the default of the signature. *)
Definition call_arguments (self : arguments)
    (sequence_length vocabulary_size : pyval) : hyperparams :=
  Build_hyperparams
    sequence_length                     (* max_seq_length *)
    vocabulary_size                     (* vocabulary_size *)
    (width self)                        (* word_embedding_size *)
    (depth self)                        (* transformer_depth *)
    (num_heads self)                    (* num_heads *)
    0.1%float                           (* transformer_dropout, default *)
    0.6%float                           (* embedding_dropout, default *)
    (PyFloat 1e-6%float)                (* l2_reg_penalty, default *)
    0.1%float                           (* confidence_penalty_weight, default *)
    (use_agglomeration self)            (* agglomerative_attention *)
    (use_convolutions self)             (* use_convolutions *)
    (negb (use_convolutions self))      (* use_coordinate_embeddings *)
    (convolution_width self)            (* convolution_width *)
    false.                              (* penalize_confidence, default *)

Definition run (self : arguments) (scope : gmap string pyval) (w : world) : outcome :=
  match scope !! "vocabulary_size" with
  | None => Raise (KeyError "vocabulary_size")
  | Some vocabulary_size =>
    match scope !! "sequence_length" with
    | None => Raise (KeyError "sequence_length")
    | Some sequence_length =>
      let '(model, w') :=
        (_ ← maybe_setup_tensorflow;
         model ← universal_transformer_gpt_model
                   (call_arguments self sequence_length vocabulary_size);
         _ ← (if print_summary self then summary model else mret tt);
         mret model) w in
      Return (<["model" := PyObj model]> scope) w'
    end
  end.

End GPTModel.

(** ** Reading a trace *)

(** A freshly started interpreter. *)
Definition start (backend_name : string) : world :=
  {| backend := backend_name; next_obj := 0; next_node := 0; trace := [] |}.

(** The result of a computation, the state it leaves, and the events it adds
    to the trace. *)
Definition result {A : Type} (m : M A) (w : world) : A := fst (m w).
Definition after {A : Type} (m : M A) (w : world) : world := snd (m w).
Definition emitted {A : Type} (m : M A) (w : world) : list event :=
  drop (length (trace w)) (trace (after m w)).

Definition is_call (ev : event) : bool :=
  match ev with Call _ _ _ _ => true | _ => false end.

Definition is_call_to (l : objid) (ev : event) : bool :=
  match ev with Call _ l' _ _ => Nat.eqb l' l | _ => false end.

Definition is_finalize (ev : event) : bool :=
  match ev with Finalize _ => true | _ => false end.

Definition is_add_loss (ev : event) : bool :=
  match ev with AddLoss _ _ => true | _ => false end.

(** All layer calls, the calls of one layer, and the objects constructed, each
    in the order of the trace. *)
Definition calls (evs : list event) : list event := List.filter is_call evs.

Definition calls_to (l : objid) (evs : list event) : list event :=
  List.filter (is_call_to l) evs.

Definition constructed (evs : list event) : list (objid * pyobject) :=
  List.flat_map (fun ev => match ev with New o what => [(o, what)] | _ => [] end) evs.

Definition is_Conv1D (what : pyobject) : bool :=
  match what with Conv1D _ _ _ _ _ _ => true | _ => false end.

Definition is_TransformerCoordinateEmbedding (what : pyobject) : bool :=
  match what with TransformerCoordinateEmbedding _ _ => true | _ => false end.

Definition is_TransformerBlock (what : pyobject) : bool :=
  match what with TransformerBlock _ _ _ _ _ _ _ => true | _ => false end.

Definition is_L2 (what : pyobject) : bool :=
  match what with L2 _ => true | _ => false end.

(** The constructed objects of one kind. *)
Definition constructed_where (P : pyobject -> bool) (evs : list event)
    : list (objid * pyobject) :=
  List.filter (fun ow => P (snd ow)) (constructed evs).

(** ** The depth loop as the specification words it *)

(** Steps a to d of one iteration: the layers to apply, in order, each with
    the [step] keyword it is given. *)
Definition stages (h : hyperparams) (ls : layers) (i : Z) : list (objid * option Z) :=
  (if use_convolutions h then [(conv_layer ls, None)] else []) ++
  (if use_coordinate_embeddings h then [(coordinate_embedding_layer ls, Some i)] else []) ++
  [(transformer_block ls, None); (transformer_act_layer ls, None)].

(** Applying layers in a chain: the first to [x] at node [n], each further one
    to the first output of the node before it. *)
Fixpoint chain (st : list (objid * option Z)) (x : tensor) (n : nat) : list event :=
  match st with
  | [] => []
  | (l, step) :: st' => Call n l [x] step :: chain st' (LayerOut n 0) (S n)
  end.

(** The number of layer calls of one iteration. *)
Definition calls_per_step (h : hyperparams) : nat :=
  (if use_convolutions h then 1 else 0) +
  (if use_coordinate_embeddings h then 1 else 0) + 2.

(** Iteration [j] of a loop entered after node [e]: its current
    representation is the first output of the node just before it, which is
    the embedding for [j = 0] and the ACT call of iteration [j - 1] after. *)
Definition iteration (h : hyperparams) (ls : layers) (e : nat) (j : nat) : list event :=
  chain (stages h ls (Z.of_nat j))
    (LayerOut (e + j * calls_per_step h) 0) (S (e + j * calls_per_step h)).

(** The number of iterations [range(transformer_depth)] makes. *)
Definition iterations (h : hyperparams) : nat := Z.to_nat (transformer_depth h).

(** The confidence penalty of an output distribution [p]: the mean of the
    weight times the sum over the last axis of [p * log p]. *)
Definition confidence_penalty_of (h : hyperparams) (p : tensor) : tensor :=
  K_mean (ScalarMul (confidence_penalty_weight h) (K_sum (Mul p (K_log p)) (-1))).

(** ** Closed forms and examples *)

(** The identities [construct_layers] hands out, from object [o] and node [n]
    on: the regularizer, when there is one, takes the identity after the
    input layer, and the seven layers follow. *)
Definition layers_from (h : hyperparams) (o n : nat) : layers :=
  let o' := if truthy (l2_reg_penalty h) then S (S o) else S o in
  {| word_ids := LayerOut n 0;
     l2_regularizer := if truthy (l2_reg_penalty h) then Some (S o) else None;
     embedding_layer := o';
     output_layer := S o';
     conv_layer := S (S o');
     coordinate_embedding_layer := S (S (S o'));
     transformer_block := S (S (S (S o')));
     transformer_act_layer := S (S (S (S (S o'))));
     output_softmax_layer := S (S (S (S (S (S o'))))) |}.

(** What [construct_layers] adds to the trace. *)
Definition construction_events (h : hyperparams) (ls : layers) (o n : nat) : list event :=
  [New o (InputLayer (max_seq_length h) "int32" "word_ids"); Call n o [] None] ++
  match l2_regularizer ls with
  | Some r => [New r (L2 (l2_reg_penalty h))]
  | None => []
  end ++
  [New (embedding_layer ls)
     (ReusableEmbedding (vocabulary_size h) (word_embedding_size h)
        (max_seq_length h) "bpe_embeddings" (l2_regularizer ls));
   New (output_layer ls)
     (TiedOutputEmbedding (l2_regularizer ls) (embedding_dropout h)
        "word_prediction_logits");
   New (conv_layer ls)
     (Conv1D (word_embedding_size h) (convolution_width h)
        "causal" "relu" "he_uniform" "convolution");
   New (coordinate_embedding_layer ls)
     (TransformerCoordinateEmbedding (transformer_depth h) "coordinate_embedding");
   New (transformer_block ls)
     (TransformerBlock "transformer" (num_heads h)
        (transformer_dropout h) (transformer_dropout h)
        true false (agglomerative_attention h));
   New (transformer_act_layer ls) (TransformerACT "adaptive_computation_time");
   New (output_softmax_layer ls) (Softmax "word_predictions")].

(** The representation the loop leaves in [act_output], entered after node [e]. *)
Definition pondered (h : hyperparams) (e : nat) : tensor :=
  match iterations h with
  | O => LayerOut e 0
  | S _ => LayerOut (e + iterations h * calls_per_step h) 1
  end.

(** What [wire] adds to the trace, from object [o] and node [e] on. *)
Definition wiring_events (h : hyperparams) (ls : layers) (o e : nat) : list event :=
  let q := (e + iterations h * calls_per_step h)%nat in
  let word_predictions := LayerOut (S (S q)) 0 in
  Call e (embedding_layer ls) [word_ids ls] None ::
  List.flat_map (iteration h ls e) (seq 0 (iterations h)) ++
  [Finalize (transformer_act_layer ls);
   Call (S q) (output_layer ls) [pondered h e; LayerOut e 1] None;
   Call (S (S q)) (output_softmax_layer ls) [LayerOut (S q) 0] None;
   New o (Model [word_ids ls] [word_predictions]);
   Backend (K_log word_predictions);
   Backend (Mul word_predictions (K_log word_predictions));
   Backend (K_sum (Mul word_predictions (K_log word_predictions)) (-1));
   Backend (ScalarMul (confidence_penalty_weight h)
              (K_sum (Mul word_predictions (K_log word_predictions)) (-1)));
   Backend (confidence_penalty_of h word_predictions)] ++
  (if penalize_confidence h
   then [AddLoss o (confidence_penalty_of h word_predictions)]
   else []).

(** The seven layers have consecutive identities, all after [o]. *)
Definition consecutive (o : objid) (ls : layers) : Prop :=
  (o < embedding_layer ls)%nat /\
  output_layer ls = S (embedding_layer ls) /\
  conv_layer ls = S (output_layer ls) /\
  coordinate_embedding_layer ls = S (conv_layer ls) /\
  transformer_block ls = S (coordinate_embedding_layer ls) /\
  transformer_act_layer ls = S (transformer_block ls) /\
  output_softmax_layer ls = S (transformer_act_layer ls).

(** A call with both positional mechanisms switched off, depth 2. *)
Definition neither_convolutions_nor_coordinates : hyperparams :=
  {| max_seq_length := PyInt 16; vocabulary_size := PyInt 100;
     word_embedding_size := 8; transformer_depth := 2; num_heads := 2;
     transformer_dropout := 0.1%float; embedding_dropout := 0.6%float;
     l2_reg_penalty := PyFloat 1e-6%float;
     confidence_penalty_weight := 0.1%float;
     agglomerative_attention := false;
     use_convolutions := false; use_coordinate_embeddings := false;
     convolution_width := 0; penalize_confidence := false |}.

(** The stage's default call with the depth set to 0. *)
Definition depth_zero : hyperparams :=
  {| max_seq_length := PyInt 16; vocabulary_size := PyInt 100;
     word_embedding_size := 64; transformer_depth := 0; num_heads := 8;
     transformer_dropout := 0.1%float; embedding_dropout := 0.6%float;
     l2_reg_penalty := PyFloat 1e-6%float;
     confidence_penalty_weight := 0.1%float;
     agglomerative_attention := false;
     use_convolutions := false; use_coordinate_embeddings := true;
     convolution_width := 8; penalize_confidence := false |}.

(** A layer call that passes the [step] keyword. *)
Definition has_step (ev : event) : bool :=
  match ev with Call _ _ _ (Some _) => true | _ => false end.

(** What [maybe_setup_tensorflow] adds to the trace. *)
Definition setup_events (w : world) : list event :=
  if String.eqb (backend w) "tensorflow"
  then [New (next_obj w) (Session true "ON_1"); SetSession (next_obj w)]
  else [].

(** The state in which the stage calls the assembler. *)
Definition world_after_setup (w : world) : world :=
  {| backend := backend w;
     next_obj := if String.eqb (backend w) "tensorflow"
                 then S (next_obj w) else next_obj w;
     next_node := next_node w;
     trace := trace w ++ setup_events w |}.

(** The stage's arguments with [use_convolutions] set, and a scope holding
    the two keys the stage reads. *)
Definition with_convolutions : GPTModel.arguments :=
  {| GPTModel.width := 64; GPTModel.depth := 6;
     GPTModel.use_convolutions := true; GPTModel.use_agglomeration := false;
     GPTModel.convolution_width := 8; GPTModel.num_heads := 8;
     GPTModel.print_summary := false |}.

Definition wikitext_scope : gmap string pyval :=
  <["vocabulary_size" := PyInt 100]> (<["sequence_length" := PyInt 16]> ∅).

(** ** Further readings of a trace *)

Definition is_backend (ev : event) : bool :=
  match ev with Backend _ => true | _ => false end.

Definition is_summary (ev : event) : bool :=
  match ev with Summary _ => true | _ => false end.

Definition is_set_session (ev : event) : bool :=
  match ev with SetSession _ => true | _ => false end.

Definition is_Session (what : pyobject) : bool :=
  match what with Session _ _ => true | _ => false end.

(** The [step] keywords passed to layers, in the order of the calls. *)
Definition steps (evs : list event) : list Z :=
  List.flat_map
    (fun ev => match ev with Call _ _ _ (Some i) => [i] | _ => [] end) evs.

(** The inputs of a layer call, and the first output of its node. *)
Definition call_inputs (ev : event) : list tensor :=
  match ev with Call _ _ ins _ => ins | _ => [] end.

Definition first_output (ev : event) : list tensor :=
  match ev with Call n _ _ _ => [LayerOut n 0] | _ => [] end.

(** Two calls of the assembler that differ in every size, rate and weight
    but not in depth, toggles or the truth of the L2 penalty. *)
Definition small_model : hyperparams :=
  {| max_seq_length := PyInt 16; vocabulary_size := PyInt 100;
     word_embedding_size := 8; transformer_depth := 3; num_heads := 2;
     transformer_dropout := 0.1%float; embedding_dropout := 0.6%float;
     l2_reg_penalty := PyFloat 1e-6%float;
     confidence_penalty_weight := 0.1%float;
     agglomerative_attention := false;
     use_convolutions := true; use_coordinate_embeddings := true;
     convolution_width := 4; penalize_confidence := false |}.

Definition large_model : hyperparams :=
  {| max_seq_length := PyInt 512; vocabulary_size := PyInt 30000;
     word_embedding_size := 768; transformer_depth := 3; num_heads := 12;
     transformer_dropout := 0.2%float; embedding_dropout := 0.5%float;
     l2_reg_penalty := PyInt 1;
     confidence_penalty_weight := 0.3%float;
     agglomerative_attention := true;
     use_convolutions := true; use_coordinate_embeddings := true;
     convolution_width := 8; penalize_confidence := true |}.

(** A call with a negative depth. *)
Definition negative_depth : hyperparams :=
  {| max_seq_length := PyInt 16; vocabulary_size := PyInt 100;
     word_embedding_size := 64; transformer_depth := -3; num_heads := 8;
     transformer_dropout := 0.1%float; embedding_dropout := 0.6%float;
     l2_reg_penalty := PyNone;
     confidence_penalty_weight := 0.1%float;
     agglomerative_attention := false;
     use_convolutions := true; use_coordinate_embeddings := true;
     convolution_width := 8; penalize_confidence := true |}.

(** ** Closed forms of the two phases *)

(** Runs a computation built from the primitives on the state at hand. *)
Ltac run_M :=
  cbv beta iota zeta delta
    [Input call2 call1 call new finalize add_loss summary backend_op emit
     mbind M_bind mret M_ret backend next_obj next_node trace].

Lemma emitted_of {A : Type} (m : M A) (w : world) (evs : list event) :
  trace (after m w) = trace w ++ evs -> emitted m w = evs.
Proof.
  intros H. unfold emitted. rewrite H. apply drop_app_length.
Qed.

Lemma length_stages h ls i : length (stages h ls i) = calls_per_step h.
Proof.
  unfold stages, calls_per_step.
  destruct (use_convolutions h), (use_coordinate_embeddings h); reflexivity.
Qed.

(** One pass through the loop body, entered with the representation that node
    [e] produced. *)
Lemma depth_step_spec h ls i e a w :
  next_node w = S e ->
  depth_step h ls i (LayerOut e 0, a) w =
    ((LayerOut (e + calls_per_step h) 0, LayerOut (e + calls_per_step h) 1),
     {| backend := backend w; next_obj := next_obj w;
        next_node := S (e + calls_per_step h);
        trace := trace w ++ chain (stages h ls i) (LayerOut e 0) (S e) |}).
Proof.
  destruct w as [b o n t]; simpl; intros ->.
  unfold depth_step, stages, calls_per_step.
  destruct (use_convolutions h), (use_coordinate_embeddings h); run_M;
    rewrite <- ?app_assoc; cbn;
    repeat match goal with
           | |- context [(e + ?k)%nat] =>
               replace (e + k)%nat with (Nat.iter k S e) by (cbn; lia); cbn
           end; reflexivity.
Qed.

Lemma flat_map_seq_S {B : Type} (f : nat -> list B) (n : nat) :
  List.flat_map f (seq 0 (S n)) = f 0%nat ++ List.flat_map (fun j => f (S j)) (seq 0 n).
Proof.
  cbn [seq List.flat_map]. f_equal.
  rewrite <- seq_shift, flat_map_concat_map, map_map, <- flat_map_concat_map.
  reflexivity.
Qed.

(** The loop, entered after node [e] at index [i], for [count] iterations. *)
Lemma for_range_depth_step h ls count : forall i e a w,
  next_node w = S e ->
  for_range count i (depth_step h ls) (LayerOut e 0, a) w =
    (match count with
     | O => (LayerOut e 0, a)
     | S _ => (LayerOut (e + count * calls_per_step h) 0,
               LayerOut (e + count * calls_per_step h) 1)
     end,
     {| backend := backend w; next_obj := next_obj w;
        next_node := S (e + count * calls_per_step h);
        trace := trace w ++
          List.flat_map
            (fun j => chain (stages h ls (i + Z.of_nat j))
                        (LayerOut (e + j * calls_per_step h) 0)
                        (S (e + j * calls_per_step h)))
            (seq 0 count) |}).
Proof.
  induction count as [|c IH]; intros i e a w Hn.
  - destruct w; simpl in *; subst. cbn. rewrite Nat.add_0_r, app_nil_r. reflexivity.
  - cbn [for_range]. unfold mbind, M_bind at 1.
    rewrite (depth_step_spec h ls i e a w Hn).
    rewrite IH by reflexivity. cbn [backend next_obj next_node trace].
    rewrite flat_map_seq_S, <- app_assoc.
    replace (e + calls_per_step h + c * calls_per_step h)%nat
      with (e + S c * calls_per_step h)%nat by lia.
    f_equal.
    + destruct c; [|reflexivity].
      replace (e + 1 * calls_per_step h)%nat with (e + calls_per_step h)%nat by lia.
      reflexivity.
    + f_equal. f_equal.
      rewrite Z.add_0_r, Nat.add_0_r. f_equal.
      apply flat_map_ext; intros j.
      replace (i + 1 + Z.of_nat j) with (i + Z.of_nat (S j)) by lia.
      replace (e + calls_per_step h + j * calls_per_step h)%nat
        with (e + S j * calls_per_step h)%nat by lia.
      reflexivity.
Qed.

Lemma construct_layers_spec h w :
  let ls := layers_from h (next_obj w) (next_node w) in
  construct_layers h w =
    (ls,
     {| backend := backend w;
        next_obj := S (output_softmax_layer ls);
        next_node := S (next_node w);
        trace := trace w ++ construction_events h ls (next_obj w) (next_node w) |}).
Proof.
  destruct w as [b o n t].
  unfold construct_layers, construction_events, layers_from.
  destruct (truthy (l2_reg_penalty h)); run_M;
    cbv beta iota zeta delta
      [l2_regularizer embedding_layer output_layer conv_layer
       coordinate_embedding_layer transformer_block transformer_act_layer
       output_softmax_layer];
    rewrite <- ?app_assoc; reflexivity.
Qed.

Lemma wire_spec h ls w :
  wire h ls w =
    (next_obj w,
     {| backend := backend w;
        next_obj := S (next_obj w);
        next_node := S (S (S (next_node w + iterations h * calls_per_step h)));
        trace := trace w ++ wiring_events h ls (next_obj w) (next_node w) |}).
Proof.
  destruct w as [b o e t].
  unfold wire, for_in_range, wiring_events, pondered, iteration,
    confidence_penalty_of.
  fold (iterations h).
  unfold mbind at 1, M_bind at 1. run_M.
  rewrite for_range_depth_step by reflexivity.
  cbv beta iota zeta delta [backend next_obj next_node trace].
  destruct (penalize_confidence h), (iterations h) as [|c] eqn:Hc;
    rewrite <- ?app_assoc; cbn [app]; reflexivity.
Qed.

Lemma universal_transformer_gpt_model_spec h w :
  let ls := layers_from h (next_obj w) (next_node w) in
  universal_transformer_gpt_model h w =
    (S (output_softmax_layer ls),
     {| backend := backend w;
        next_obj := S (S (output_softmax_layer ls));
        next_node := S (S (S (S (next_node w + iterations h * calls_per_step h))));
        trace := trace w ++
          construction_events h ls (next_obj w) (next_node w) ++
          wiring_events h ls (S (output_softmax_layer ls)) (S (next_node w)) |}).
Proof.
  cbv zeta. unfold universal_transformer_gpt_model, mbind, M_bind.
  rewrite construct_layers_spec, wire_spec.
  cbv beta iota zeta delta [backend next_obj next_node trace].
  rewrite <- app_assoc. reflexivity.
Qed.

Lemma result_construct_layers h w :
  result (construct_layers h) w = layers_from h (next_obj w) (next_node w).
Proof. unfold result. rewrite construct_layers_spec. reflexivity. Qed.

Lemma next_node_after_construct_layers h w :
  next_node (after (construct_layers h) w) = S (next_node w).
Proof. unfold after. rewrite construct_layers_spec. reflexivity. Qed.

Lemma emitted_construct_layers h w :
  emitted (construct_layers h) w =
    construction_events h (layers_from h (next_obj w) (next_node w))
      (next_obj w) (next_node w).
Proof.
  apply emitted_of. unfold after. rewrite construct_layers_spec. reflexivity.
Qed.

Lemma result_universal_transformer_gpt_model h w :
  result (universal_transformer_gpt_model h) w =
    S (output_softmax_layer (layers_from h (next_obj w) (next_node w))).
Proof. unfold result. rewrite universal_transformer_gpt_model_spec. reflexivity. Qed.

Lemma emitted_universal_transformer_gpt_model h w :
  emitted (universal_transformer_gpt_model h) w =
    construction_events h (layers_from h (next_obj w) (next_node w))
      (next_obj w) (next_node w) ++
    wiring_events h (layers_from h (next_obj w) (next_node w))
      (S (output_softmax_layer (layers_from h (next_obj w) (next_node w))))
      (S (next_node w)).
Proof.
  apply emitted_of. unfold after.
  rewrite universal_transformer_gpt_model_spec. reflexivity.
Qed.

Lemma layers_from_consecutive h o n : consecutive o (layers_from h o n).
Proof.
  unfold consecutive, layers_from.
  destruct (truthy (l2_reg_penalty h)); cbn; repeat split; lia.
Qed.

(** ** Filtering the closed forms *)

Lemma filter_flat_map {A B : Type} (f : B -> bool) (g : A -> list B) (l : list A) :
  List.filter f (List.flat_map g l) = List.flat_map (fun x => List.filter f (g x)) l.
Proof.
  induction l as [|x l IH]; [reflexivity|].
  cbn [List.flat_map]. rewrite List.filter_app, IH. reflexivity.
Qed.

Lemma flat_map_nil {A B : Type} (g : A -> list B) (l : list A) :
  (forall x, g x = []) -> List.flat_map g l = [].
Proof.
  intros Hg. induction l as [|x l IH]; [reflexivity|].
  cbn [List.flat_map]. rewrite Hg, IH. reflexivity.
Qed.

Lemma length_flat_map_const {A B : Type} (g : A -> list B) (l : list A) (k : nat) :
  (forall x, length (g x) = k) -> length (List.flat_map g l) = (length l * k)%nat.
Proof.
  intros Hg. induction l as [|x l IH]; [reflexivity|].
  cbn [List.flat_map length]. rewrite length_app, Hg, IH. lia.
Qed.

Lemma calls_app evs1 evs2 : calls (evs1 ++ evs2) = calls evs1 ++ calls evs2.
Proof. apply List.filter_app. Qed.

Lemma calls_to_app l evs1 evs2 :
  calls_to l (evs1 ++ evs2) = calls_to l evs1 ++ calls_to l evs2.
Proof. apply List.filter_app. Qed.

Lemma constructed_app evs1 evs2 :
  constructed (evs1 ++ evs2) = constructed evs1 ++ constructed evs2.
Proof. apply flat_map_app. Qed.

Lemma calls_to_cons l ev evs :
  calls_to l (ev :: evs) =
  if is_call_to l ev then ev :: calls_to l evs else calls_to l evs.
Proof. reflexivity. Qed.

(** The calls of one layer are found among the calls. *)
Lemma calls_to_calls l evs : calls_to l (calls evs) = calls_to l evs.
Proof.
  unfold calls_to, calls.
  induction evs as [|ev evs IH]; [reflexivity|].
  destruct ev; cbn; rewrite IH; reflexivity.
Qed.

Section Chain.

Variable st : list (objid * option Z).

Lemma calls_chain : forall x n, calls (chain st x n) = chain st x n.
Proof.
  unfold calls. induction st as [|[l step] st' IH]; intros x n; [reflexivity|].
  cbn. rewrite IH. reflexivity.
Qed.

Lemma filter_chain_nil (f : event -> bool) :
  (forall n l ins step, In (l, step) st -> f (Call n l ins step) = false) ->
  forall x n, List.filter f (chain st x n) = [].
Proof.
  induction st as [|[l step] st' IH]; intros Hf x n; [reflexivity|].
  cbn. rewrite Hf by (left; reflexivity).
  apply IH. intros; apply Hf; right; assumption.
Qed.

Lemma constructed_chain : forall x n, constructed (chain st x n) = [].
Proof.
  unfold constructed. induction st as [|[l step] st' IH]; intros x n; [reflexivity|].
  cbn. apply IH.
Qed.

(** A layer is called as often as it occurs among the stages. *)
Lemma length_calls_to_chain l : forall x n,
  length (calls_to l (chain st x n)) =
  length (List.filter (fun s => Nat.eqb (fst s) l) st).
Proof.
  unfold calls_to. induction st as [|[l' step] st' IH]; intros x n; [reflexivity|].
  cbn. destruct (Nat.eqb l' l); cbn; rewrite IH; reflexivity.
Qed.

End Chain.

(** Settles the comparisons of identities in the goal by arithmetic. *)
Ltac decide_ids :=
  repeat match goal with
         | |- context [Nat.eqb ?a ?b] =>
             first [ replace (Nat.eqb a b) with true
                       by (symmetry; apply Nat.eqb_eq; lia)
                   | replace (Nat.eqb a b) with false
                       by (symmetry; apply Nat.eqb_neq; lia) ]
         end.

Section Loop.

Variables (h : hyperparams) (ls : layers) (e : nat).

Local Abbreviation loop js := (List.flat_map (iteration h ls e) js).

Lemma calls_loop js : calls (loop js) = loop js.
Proof.
  unfold calls. rewrite filter_flat_map. apply flat_map_ext; intros j.
  apply calls_chain.
Qed.

Lemma constructed_loop js : constructed (loop js) = [].
Proof.
  induction js as [|j js IH]; [reflexivity|].
  cbn [List.flat_map]. rewrite constructed_app, IH.
  unfold iteration. rewrite constructed_chain. reflexivity.
Qed.

Lemma filter_loop_nil (f : event -> bool) js :
  (forall n l ins step, f (Call n l ins step) = false) ->
  List.filter f (loop js) = [].
Proof.
  intros Hf. rewrite filter_flat_map. apply flat_map_nil; intros j.
  apply filter_chain_nil. intros; apply Hf.
Qed.

Lemma length_calls_to_loop l js :
  length (calls_to l (loop js)) =
  (length js * length (List.filter (fun s => Nat.eqb (fst s) l) (stages h ls 0)))%nat.
Proof.
  unfold calls_to. rewrite filter_flat_map.
  apply length_flat_map_const; intros j. unfold iteration.
  etransitivity; [exact (length_calls_to_chain _ l _ _)|]. unfold stages.
  destruct (use_convolutions h), (use_coordinate_embeddings h);
    cbn [app List.filter fst];
    repeat match goal with
           | |- context [Nat.eqb ?a l] => destruct (Nat.eqb a l)
           end; reflexivity.
Qed.

Lemma calls_to_loop_nil l js :
  l <> conv_layer ls -> l <> coordinate_embedding_layer ls ->
  l <> transformer_block ls -> l <> transformer_act_layer ls ->
  calls_to l (loop js) = [].
Proof.
  intros H1 H2 H3 H4. apply length_zero_iff_nil.
  rewrite length_calls_to_loop. unfold stages.
  destruct (use_convolutions h), (use_coordinate_embeddings h);
    cbn [app List.filter fst]; decide_ids; cbn [length]; lia.
Qed.

End Loop.

(** A whole run: the construction events for layers [ls] from object [o] and
    node [n], then the wiring events with model [m] from node [e]. *)
Section Assembly.

Variables (h : hyperparams) (ls : layers) (o n m e : nat).

Local Abbreviation assembly :=
  (construction_events h ls o n ++ wiring_events h ls m e).
Local Abbreviation loop := (List.flat_map (iteration h ls e) (seq 0 (iterations h))).
Local Abbreviation q := (e + iterations h * calls_per_step h)%nat.

Lemma calls_construction :
  calls (construction_events h ls o n) = [Call n o [] None].
Proof.
  unfold calls, construction_events.
  destruct (l2_regularizer ls); reflexivity.
Qed.

Lemma calls_assembly :
  calls assembly =
    Call n o [] None ::
    Call e (embedding_layer ls) [word_ids ls] None ::
    loop ++
    [Call (S q) (output_layer ls) [pondered h e; LayerOut e 1] None;
     Call (S (S q)) (output_softmax_layer ls) [LayerOut (S q) 0] None].
Proof.
  rewrite calls_app, calls_construction. unfold wiring_events.
  cbn [app]. f_equal.
  change (calls (?ev :: ?evs)) with (calls ([ev] ++ evs)).
  rewrite !calls_app, calls_loop.
  destruct (penalize_confidence h); reflexivity.
Qed.

Lemma constructed_wiring :
  constructed (wiring_events h ls m e) =
    [(m, Model [word_ids ls] [LayerOut (S (S q)) 0])].
Proof.
  unfold wiring_events.
  change (constructed (?ev :: ?evs)) with (constructed ([ev] ++ evs)).
  rewrite !constructed_app, constructed_loop.
  destruct (penalize_confidence h); reflexivity.
Qed.

Lemma constructed_assembly :
  constructed assembly =
    [(o, InputLayer (max_seq_length h) "int32" "word_ids")] ++
    match l2_regularizer ls with
    | Some r => [(r, L2 (l2_reg_penalty h))]
    | None => []
    end ++
    [(embedding_layer ls,
      ReusableEmbedding (vocabulary_size h) (word_embedding_size h)
        (max_seq_length h) "bpe_embeddings" (l2_regularizer ls));
     (output_layer ls,
      TiedOutputEmbedding (l2_regularizer ls) (embedding_dropout h)
        "word_prediction_logits");
     (conv_layer ls,
      Conv1D (word_embedding_size h) (convolution_width h)
        "causal" "relu" "he_uniform" "convolution");
     (coordinate_embedding_layer ls,
      TransformerCoordinateEmbedding (transformer_depth h) "coordinate_embedding");
     (transformer_block ls,
      TransformerBlock "transformer" (num_heads h)
        (transformer_dropout h) (transformer_dropout h)
        true false (agglomerative_attention h));
     (transformer_act_layer ls, TransformerACT "adaptive_computation_time");
     (output_softmax_layer ls, Softmax "word_predictions");
     (m, Model [word_ids ls] [LayerOut (S (S q)) 0])].
Proof.
  rewrite constructed_app, constructed_wiring. unfold construction_events.
  destruct (l2_regularizer ls); reflexivity.
Qed.

Lemma finalize_assembly :
  List.filter is_finalize assembly = [Finalize (transformer_act_layer ls)].
Proof.
  unfold wiring_events, construction_events.
  change (?ev :: ?a ++ ?b) with ([ev] ++ a ++ b).
  rewrite !List.filter_app, filter_loop_nil by reflexivity.
  destruct (penalize_confidence h), (l2_regularizer ls); reflexivity.
Qed.

Lemma add_loss_assembly :
  List.filter is_add_loss assembly =
    if penalize_confidence h
    then [AddLoss m (confidence_penalty_of h (LayerOut (S (S q)) 0))]
    else [].
Proof.
  unfold wiring_events, construction_events.
  change (?ev :: ?a ++ ?b) with ([ev] ++ a ++ b).
  rewrite !List.filter_app, filter_loop_nil by reflexivity.
  destruct (penalize_confidence h), (l2_regularizer ls); reflexivity.
Qed.

Hypothesis Hls : consecutive o ls.

(** The calls of a layer the loop leaves alone. *)
Lemma calls_to_outside_loop l :
  l <> conv_layer ls -> l <> coordinate_embedding_layer ls ->
  l <> transformer_block ls -> l <> transformer_act_layer ls ->
  calls_to l assembly =
    calls_to l
      [Call n o [] None;
       Call e (embedding_layer ls) [word_ids ls] None;
       Call (S q) (output_layer ls) [pondered h e; LayerOut e 1] None;
       Call (S (S q)) (output_softmax_layer ls) [LayerOut (S q) 0] None].
Proof.
  intros H1 H2 H3 H4.
  rewrite <- calls_to_calls, calls_assembly.
  rewrite !calls_to_cons, calls_to_app, calls_to_loop_nil by assumption.
  reflexivity.
Qed.

Lemma calls_to_embedding_layer :
  calls_to (embedding_layer ls) assembly =
    [Call e (embedding_layer ls) [word_ids ls] None].
Proof.
  destruct Hls as (H0 & H1 & H2 & H3 & H4 & H5 & H6).
  rewrite calls_to_outside_loop by lia.
  unfold calls_to. cbn [List.filter is_call_to]. decide_ids. reflexivity.
Qed.

Lemma calls_to_output_layer :
  calls_to (output_layer ls) assembly =
    [Call (S q) (output_layer ls) [pondered h e; LayerOut e 1] None].
Proof.
  destruct Hls as (H0 & H1 & H2 & H3 & H4 & H5 & H6).
  rewrite calls_to_outside_loop by lia.
  unfold calls_to. cbn [List.filter is_call_to]. decide_ids. reflexivity.
Qed.

(** The number of calls of a layer of the loop. *)
Lemma length_calls_to_inside_loop l :
  l <> o -> l <> embedding_layer ls ->
  l <> output_layer ls -> l <> output_softmax_layer ls ->
  length (calls_to l assembly) =
    (iterations h *
     length (List.filter (fun s => Nat.eqb (fst s) l) (stages h ls 0)))%nat.
Proof.
  intros H1 H2 H3 H4.
  rewrite <- calls_to_calls, calls_assembly.
  rewrite !calls_to_cons, calls_to_app. cbn [is_call_to]. decide_ids.
  rewrite !calls_to_cons. cbn [is_call_to]. decide_ids.
  rewrite length_app, length_calls_to_loop, length_seq. cbn [calls_to List.filter length].
  lia.
Qed.

End Assembly.

Lemma l2_regularizer_layers_from h o n :
  l2_regularizer (layers_from h o n) =
    if truthy (l2_reg_penalty h) then Some (S o) else None.
Proof. reflexivity. Qed.

(** Finds an element in a list that is written out. *)
Ltac find_in :=
  repeat first [ left; reflexivity | apply in_or_app; right | right ].

(** Turns a statement about a run of the routine into one about its closed
    form, over layers [ls] known only to be numbered consecutively. *)
Ltac closed_form w ls Hls Hreg :=
  cbv zeta;
  rewrite ?result_universal_transformer_gpt_model,
    ?emitted_universal_transformer_gpt_model, ?emitted_construct_layers,
    ?result_construct_layers, ?next_node_after_construct_layers;
  match goal with
  | |- context [layers_from ?h ?o ?n] =>
      pose proof (layers_from_consecutive h o n) as Hls;
      pose proof (l2_regularizer_layers_from h o n) as Hreg;
      set (ls := layers_from h o n) in *;
      clearbody ls
  end.

(** ** The claims *)

(** C1 (weight tying).  In every run, for every setting of the
    hyperparameters, the embedding layer is called exactly once, on the input
    ids; the output-projection layer is called exactly once; and the second
    input of that call is the second output of the embedding call: the very
    embedding matrix the embedding layer returned, not a second one.  The two
    layers are the [ReusableEmbedding] and the [TiedOutputEmbedding] the
    routine constructed. *)
Theorem embedding_matrix_is_tied (h : hyperparams) (w : world) :
  let ls := result (construct_layers h) w in
  let evs := emitted (universal_transformer_gpt_model h) w in
  exists (e n : nat) (representation : tensor),
    calls_to (embedding_layer ls) evs =
      [Call e (embedding_layer ls) [word_ids ls] None] /\
    calls_to (output_layer ls) evs =
      [Call n (output_layer ls) [representation; LayerOut e 1] None] /\
    In (embedding_layer ls,
        ReusableEmbedding (vocabulary_size h) (word_embedding_size h)
          (max_seq_length h) "bpe_embeddings" (l2_regularizer ls))
       (constructed evs) /\
    In (output_layer ls,
        TiedOutputEmbedding (l2_regularizer ls) (embedding_dropout h)
          "word_prediction_logits")
       (constructed evs).
Proof.
  closed_form w ls Hls Hreg.
  eexists _, _, _. split; [|split; [|split]].
  - apply calls_to_embedding_layer with (o := next_obj w). exact Hls.
  - apply calls_to_output_layer with (o := next_obj w). exact Hls.
  - rewrite constructed_assembly.
    apply in_or_app; right; apply in_or_app; right. left. reflexivity.
  - rewrite constructed_assembly.
    apply in_or_app; right; apply in_or_app; right. right. left. reflexivity.
Qed.

(** C2 (weight sharing across depth).  Whatever the depth, a run constructs
    exactly one transformer block; that one object is called once in every
    iteration of the depth loop, so [transformer_depth] times in all (and not
    at all for a depth below 1); and the number of objects a run constructs
    does not depend on the depth. *)
Theorem one_transformer_block_for_all_depths (h : hyperparams) (w : world) :
  let ls := result (construct_layers h) w in
  let evs := emitted (universal_transformer_gpt_model h) w in
  let e := next_node (after (construct_layers h) w) in
  constructed_where is_TransformerBlock evs =
    [(transformer_block ls,
      TransformerBlock "transformer" (num_heads h)
        (transformer_dropout h) (transformer_dropout h)
        true false (agglomerative_attention h))] /\
  length (calls_to (transformer_block ls) evs) = Z.to_nat (transformer_depth h) /\
  (forall j : nat, length (calls_to (transformer_block ls) (iteration h ls e j)) = 1%nat) /\
  length (constructed evs) = (if truthy (l2_reg_penalty h) then 10 else 9)%nat.
Proof.
  closed_form w ls Hls Hreg.
  pose proof Hls as (H0 & H1 & H2 & H3 & H4 & H5 & H6).
  split; [|split; [|split]].
  - unfold constructed_where. rewrite constructed_assembly, !List.filter_app.
    destruct (l2_regularizer ls); reflexivity.
  - rewrite length_calls_to_inside_loop with (o := next_obj w) by (assumption || lia).
    unfold stages.
    destruct (use_convolutions h), (use_coordinate_embeddings h);
      cbn [app List.filter fst]; decide_ids; cbn [length]; unfold iterations; lia.
  - intros j. unfold iteration.
    etransitivity; [exact (length_calls_to_chain _ _ _ _)|]. unfold stages.
    destruct (use_convolutions h), (use_coordinate_embeddings h);
      cbn [app List.filter fst]; decide_ids; reflexivity.
  - rewrite constructed_assembly, Hreg.
    destruct (truthy (l2_reg_penalty h)); reflexivity.
Qed.

(** C3 (order inside the depth loop).  First, the loop body on any loop
    variables in any state: it makes the calls of [stages] in their order
    (convolution if enabled, coordinate embedding with [step = i] if enabled,
    transformer block, ACT), the first on the current representation and each
    further one on the output of the call before; the last of these nodes is
    the ACT call, and its two outputs become the next-step representation and
    the accumulated output.  Second, the layer calls of a whole run, in
    order: those of the construction phase, the embedding call, then for
    [j = 0, 1, ..., transformer_depth - 1] the calls of iteration [j], then
    the output projection and the softmax. *)
Theorem depth_loop_applies_layers_in_order (h : hyperparams) (w : world) :
  let ls := result (construct_layers h) w in
  let evs := emitted (universal_transformer_gpt_model h) w in
  let e := next_node (after (construct_layers h) w) in
  (forall (i : Z) (x act_output : tensor) (w' : world),
     let act_node := (next_node w' + calls_per_step h - 1)%nat in
     depth_step h ls i (x, act_output) w' =
       ((LayerOut act_node 0, LayerOut act_node 1),
        {| backend := backend w'; next_obj := next_obj w';
           next_node := S act_node;
           trace := trace w' ++ chain (stages h ls i) x (next_node w') |})) /\
  exists (q : nat) (representation : tensor),
    calls evs =
      calls (emitted (construct_layers h) w) ++
      Call e (embedding_layer ls) [word_ids ls] None ::
      List.flat_map (iteration h ls e) (seq 0 (Z.to_nat (transformer_depth h))) ++
      [Call q (output_layer ls) [representation; LayerOut e 1] None;
       Call (S q) (output_softmax_layer ls) [LayerOut q 0] None].
Proof.
  closed_form w ls Hls Hreg. split.
  - intros i x a [b o n t]. cbv zeta.
    cbv beta iota delta [backend next_obj next_node trace].
    unfold depth_step, stages, calls_per_step.
    destruct (use_convolutions h), (use_coordinate_embeddings h); run_M;
      rewrite <- ?app_assoc; cbn [app chain Nat.add];
      repeat match goal with
             | |- context [(n + ?k - 1)%nat] =>
                 replace (n + k - 1)%nat with (Nat.iter (k - 1) S n) by (cbn; lia);
                 cbn [Nat.iter Nat.sub nat_rect]
             end; reflexivity.
  - eexists _, _. rewrite calls_assembly, calls_construction. reflexivity.
Qed.

Section LastCalls.

Variables (h : hyperparams) (ls : layers) (o e : nat).
Hypothesis Hls : consecutive o ls.

(** The transformer and ACT calls of iteration [j]: the last two of its
    calls, the ACT controller reading the block's output. *)
Lemma block_and_act_calls_of_iteration j :
  let a := (e + j * calls_per_step h + calls_per_step h)%nat in
  exists x,
    calls_to (transformer_block ls) (iteration h ls e j) =
      [Call (a - 1) (transformer_block ls) [x] None] /\
    calls_to (transformer_act_layer ls) (iteration h ls e j) =
      [Call a (transformer_act_layer ls) [LayerOut (a - 1) 0] None].
Proof.
  destruct Hls as (H0 & H1 & H2 & H3 & H4 & H5 & H6).
  cbv zeta. unfold iteration, stages, calls_per_step, calls_to.
  generalize (e + j * ((if use_convolutions h then 1 else 0) +
                       (if use_coordinate_embeddings h then 1 else 0) + 2))%nat.
  intros p.
  destruct (use_convolutions h), (use_coordinate_embeddings h);
    cbn [app chain List.filter is_call_to Nat.add]; decide_ids; eexists;
    repeat match goal with
           | |- context [(p + ?k)%nat] =>
               replace (p + k)%nat with (Nat.iter k S p) by (cbn; lia);
               cbn [Nat.iter nat_rect]
           end;
    cbn [Nat.sub]; rewrite ?Nat.sub_0_r; split; reflexivity.
Qed.

(** After at least one iteration, the last transformer call and the last ACT
    call of the loop. *)
Lemma last_block_and_act_calls c :
  exists m ins,
    last (calls_to (transformer_block ls)
            (List.flat_map (iteration h ls e) (seq 0 (S c)))) =
      Some (Call m (transformer_block ls) ins None) /\
    last (calls_to (transformer_act_layer ls)
            (List.flat_map (iteration h ls e) (seq 0 (S c)))) =
      Some (Call (S m) (transformer_act_layer ls) [LayerOut m 0] None) /\
    S m = (e + S c * calls_per_step h)%nat.
Proof.
  unfold calls_to. rewrite !filter_flat_map.
  rewrite seq_S, !flat_map_app. cbn [List.flat_map]. rewrite !app_nil_r.
  destruct (block_and_act_calls_of_iteration c) as (x & Hb & Ha).
  unfold calls_to in Hb, Ha. cbn [Nat.add]. rewrite Hb, Ha, !last_snoc.
  exists (e + c * calls_per_step h + calls_per_step h - 1)%nat, [x].
  assert (2 <= calls_per_step h)%nat
    by (unfold calls_per_step; lia).
  replace (S (e + c * calls_per_step h + calls_per_step h - 1))
    with (e + c * calls_per_step h + calls_per_step h)%nat by lia.
  repeat split; lia.
Qed.

End LastCalls.

(** C4 (finalize, then project the pondered output).  A run finalizes exactly
    once, and it is the ACT controller it finalizes; every call of the
    transformer block and of the ACT controller comes before that, and the
    only layer calls after it are the output projection and then the softmax
    on its logits, whose output is the output of the model.  The first input
    of the projection is the second output of the last ACT call, whose own
    input was the first output of the last transformer-block call: the
    accumulated output, not the transformer output of the last iteration.
    (With no iteration there is no ACT call and the projection reads the
    embedded sequence.) *)
Theorem finalize_then_project_pondered_output (h : hyperparams) (w : world) :
  let ls := result (construct_layers h) w in
  let evs := emitted (universal_transformer_gpt_model h) w in
  let e := next_node (after (construct_layers h) w) in
  let model := result (universal_transformer_gpt_model h) w in
  List.filter is_finalize evs = [Finalize (transformer_act_layer ls)] /\
  exists (before behind : list event) (n : nat) (representation : tensor),
    evs = before ++ Finalize (transformer_act_layer ls) :: behind /\
    calls_to (transformer_block ls) behind = [] /\
    calls_to (transformer_act_layer ls) behind = [] /\
    calls behind =
      [Call n (output_layer ls) [representation; LayerOut e 1] None;
       Call (S n) (output_softmax_layer ls) [LayerOut n 0] None] /\
    constructed behind = [(model, Model [word_ids ls] [LayerOut (S n) 0])] /\
    match last (calls_to (transformer_act_layer ls) before),
          last (calls_to (transformer_block ls) before) with
    | Some (Call a _ ins _), Some (Call m _ _ _) =>
        ins = [LayerOut m 0] /\ representation = LayerOut a 1
    | None, None =>
        Z.to_nat (transformer_depth h) = 0%nat /\ representation = LayerOut e 0
    | _, _ => False
    end.
Proof.
  closed_form w ls Hls Hreg.
  pose proof Hls as (H0 & H1 & H2 & H3 & H4 & H5 & H6).
  split; [apply finalize_assembly|].
  unfold wiring_events.
  eexists (construction_events h ls (next_obj w) (next_node w) ++
           Call (S (next_node w)) _ _ None :: List.flat_map _ _), _, _, _.
  split; [rewrite <- app_assoc; cbn [app]; reflexivity|].
  split; [destruct (penalize_confidence h);
          cbn [app calls_to List.filter is_call_to]; decide_ids; reflexivity|].
  split; [destruct (penalize_confidence h);
          cbn [app calls_to List.filter is_call_to]; decide_ids; reflexivity|].
  split; [destruct (penalize_confidence h); reflexivity|].
  split; [destruct (penalize_confidence h); reflexivity|].
  rewrite !calls_to_app.
  rewrite <- !(calls_to_calls _ (construction_events _ _ _ _)), calls_construction.
  rewrite !calls_to_cons. cbn [is_call_to]. decide_ids.
  cbn [calls_to List.filter app].
  fold (calls_to (transformer_act_layer ls)
          (List.flat_map (iteration h ls (S (next_node w))) (seq 0 (iterations h)))).
  fold (calls_to (transformer_block ls)
          (List.flat_map (iteration h ls (S (next_node w))) (seq 0 (iterations h)))).
  unfold pondered. destruct (iterations h) as [|c] eqn:Hc.
  - cbn. split; [exact Hc | reflexivity].
  - destruct (last_block_and_act_calls h ls (next_obj w) (S (next_node w)) Hls c)
      as (m & ins & Hb & Ha & Hm).
    rewrite Ha, Hb. split; [reflexivity|].
    rewrite Hm. reflexivity.
Qed.

(** C5 (confidence penalty).  In every run the backend computes the penalty
    of the model's output distribution [p], the mean of
    [confidence_penalty_weight] times the sum over the last axis of
    [p * log p], whether or not it is used; the run adds a loss to the model
    exactly when [penalize_confidence] is set, and then it is this penalty and
    nothing else. *)
Theorem confidence_penalty_attached_only_on_request (h : hyperparams) (w : world) :
  let ls := result (construct_layers h) w in
  let evs := emitted (universal_transformer_gpt_model h) w in
  let model := result (universal_transformer_gpt_model h) w in
  exists p : tensor,
    In (model, Model [word_ids ls] [p]) (constructed evs) /\
    In (Backend
          (K_mean (ScalarMul (confidence_penalty_weight h)
                     (K_sum (Mul p (K_log p)) (-1))))) evs /\
    List.filter is_add_loss evs =
      if penalize_confidence h
      then [AddLoss model
              (K_mean (ScalarMul (confidence_penalty_weight h)
                         (K_sum (Mul p (K_log p)) (-1))))]
      else [].
Proof.
  closed_form w ls Hls Hreg.
  eexists. split; [|split].
  - rewrite constructed_app, constructed_wiring. apply in_or_app. right.
    left. reflexivity.
  - apply in_or_app. right. unfold wiring_events. right.
    apply in_or_app. right. apply in_or_app. left.
    unfold confidence_penalty_of.
    do 8 right. left. reflexivity.
  - apply add_loss_assembly.
Qed.

(** C7, as stated, fails: with both toggles off the routine still constructs
    a convolution layer and a coordinate-embedding layer. *)
Lemma toggles_off_layers_still_constructed :
  use_convolutions neither_convolutions_nor_coordinates = false /\
  use_coordinate_embeddings neither_convolutions_nor_coordinates = false /\
  constructed_where is_Conv1D
    (emitted (universal_transformer_gpt_model neither_convolutions_nor_coordinates)
       (start "theano")) =
    [(4%nat, Conv1D 8 0 "causal" "relu" "he_uniform" "convolution")] /\
  constructed_where is_TransformerCoordinateEmbedding
    (emitted (universal_transformer_gpt_model neither_convolutions_nor_coordinates)
       (start "theano")) =
    [(5%nat, TransformerCoordinateEmbedding 2 "coordinate_embedding")].
Proof. repeat split; vm_compute; reflexivity. Qed.

(** C7, amended.  Every run constructs exactly one causal convolution layer
    and exactly one coordinate-embedding layer, the latter with the total
    [transformer_depth], whatever the toggles say; a toggle decides only
    whether its layer is called: once per iteration when it is set, never
    when it is not. *)
Theorem position_layers_always_constructed_called_on_toggle
    (h : hyperparams) (w : world) :
  let ls := result (construct_layers h) w in
  let evs := emitted (universal_transformer_gpt_model h) w in
  constructed_where is_Conv1D evs =
    [(conv_layer ls,
      Conv1D (word_embedding_size h) (convolution_width h)
        "causal" "relu" "he_uniform" "convolution")] /\
  constructed_where is_TransformerCoordinateEmbedding evs =
    [(coordinate_embedding_layer ls,
      TransformerCoordinateEmbedding (transformer_depth h) "coordinate_embedding")] /\
  length (calls_to (conv_layer ls) evs) =
    (if use_convolutions h then Z.to_nat (transformer_depth h) else 0%nat) /\
  length (calls_to (coordinate_embedding_layer ls) evs) =
    (if use_coordinate_embeddings h then Z.to_nat (transformer_depth h) else 0%nat).
Proof.
  closed_form w ls Hls Hreg.
  pose proof Hls as (H0 & H1 & H2 & H3 & H4 & H5 & H6).
  split; [|split; [|split]].
  - unfold constructed_where. rewrite constructed_assembly, !List.filter_app.
    destruct (l2_regularizer ls); reflexivity.
  - unfold constructed_where. rewrite constructed_assembly, !List.filter_app.
    destruct (l2_regularizer ls); reflexivity.
  - rewrite length_calls_to_inside_loop with (o := next_obj w) by (assumption || lia).
    unfold stages.
    destruct (use_convolutions h), (use_coordinate_embeddings h);
      cbn [app List.filter fst]; decide_ids; cbn [length]; unfold iterations; lia.
  - rewrite length_calls_to_inside_loop with (o := next_obj w) by (assumption || lia).
    unfold stages.
    destruct (use_convolutions h), (use_coordinate_embeddings h);
      cbn [app List.filter fst]; decide_ids; cbn [length]; unfold iterations; lia.
Qed.

(** C8 (L2 regularizer).  The truth value of [l2_reg_penalty] decides: it is
    false for [None], for the integer 0 and for the floats 0.0 and -0.0, and
    true for every other integer and every float that does not compare equal
    to zero.  When it is false a run constructs no regularizer, and the
    embedding layer and the output projection, the only two objects that take
    one, are constructed with [None]; when it is true a run constructs exactly
    one [L2] regularizer, of strength [l2_reg_penalty], and hands that one
    object to both. *)
Theorem l2_regularizer_exactly_when_penalty_nonzero (h : hyperparams) (w : world) :
  let ls := result (construct_layers h) w in
  let evs := emitted (universal_transformer_gpt_model h) w in
  (truthy PyNone = false /\ truthy (PyInt 0) = false /\
   truthy (PyFloat 0%float) = false /\ truthy (PyFloat (-0)%float) = false /\
   (forall z : Z, z <> 0 -> truthy (PyInt z) = true) /\
   (forall f : float, PrimFloat.eqb f 0%float = false -> truthy (PyFloat f) = true)) /\
  In (embedding_layer ls,
      ReusableEmbedding (vocabulary_size h) (word_embedding_size h)
        (max_seq_length h) "bpe_embeddings" (l2_regularizer ls))
     (constructed evs) /\
  In (output_layer ls,
      TiedOutputEmbedding (l2_regularizer ls) (embedding_dropout h)
        "word_prediction_logits")
     (constructed evs) /\
  if truthy (l2_reg_penalty h)
  then exists r : objid,
         l2_regularizer ls = Some r /\
         constructed_where is_L2 evs = [(r, L2 (l2_reg_penalty h))]
  else l2_regularizer ls = None /\ constructed_where is_L2 evs = [].
Proof.
  closed_form w ls Hls Hreg. split; [|split; [|split]].
  - repeat split; try reflexivity.
    + intros z Hz. cbn. apply Z.eqb_neq in Hz. rewrite Hz. reflexivity.
    + intros f Hf. cbn. rewrite Hf. reflexivity.
  - rewrite constructed_assembly.
    apply in_or_app; right; apply in_or_app; right. left. reflexivity.
  - rewrite constructed_assembly.
    apply in_or_app; right; apply in_or_app; right. right. left. reflexivity.
  - unfold constructed_where. rewrite constructed_assembly, !List.filter_app, Hreg.
    destruct (truthy (l2_reg_penalty h)).
    + eexists. split; reflexivity.
    + split; reflexivity.
Qed.

(** C10 (depth 0).  With [transformer_depth = 0] the routine runs to its end
    and returns the model it constructed; no convolution, coordinate
    embedding, transformer block or ACT call is made; the ACT controller is
    finalized all the same, once; and after the embedding call the only layer
    calls are the output projection, on the two outputs of the embedding call
    (the embedded sequence and the embedding matrix), and the softmax on its
    logits, whose output is the model's output. *)
Theorem depth_zero_projects_the_embedded_input (h : hyperparams) (w : world) :
  transformer_depth h = 0 ->
  let ls := result (construct_layers h) w in
  let evs := emitted (universal_transformer_gpt_model h) w in
  let model := result (universal_transformer_gpt_model h) w in
  let e := next_node (after (construct_layers h) w) in
  calls_to (conv_layer ls) evs = [] /\
  calls_to (coordinate_embedding_layer ls) evs = [] /\
  calls_to (transformer_block ls) evs = [] /\
  calls_to (transformer_act_layer ls) evs = [] /\
  List.filter is_finalize evs = [Finalize (transformer_act_layer ls)] /\
  calls evs =
    calls (emitted (construct_layers h) w) ++
    [Call e (embedding_layer ls) [word_ids ls] None;
     Call (S e) (output_layer ls) [LayerOut e 0; LayerOut e 1] None;
     Call (S (S e)) (output_softmax_layer ls) [LayerOut (S e) 0] None] /\
  In (model, Model [word_ids ls] [LayerOut (S (S e)) 0]) (constructed evs).
Proof.
  intros Hdepth.
  assert (Hn : iterations h = 0%nat) by (unfold iterations; rewrite Hdepth; reflexivity).
  closed_form w ls Hls Hreg.
  pose proof Hls as (H0 & H1 & H2 & H3 & H4 & H5 & H6).
  assert (Hnone : forall l,
            l <> next_obj w -> l <> embedding_layer ls ->
            l <> output_layer ls -> l <> output_softmax_layer ls ->
            calls_to l
              (construction_events h ls (next_obj w) (next_node w) ++
               wiring_events h ls (S (output_softmax_layer ls)) (S (next_node w))) = []).
  { intros l ? ? ? ?. apply length_zero_iff_nil.
    rewrite length_calls_to_inside_loop with (o := next_obj w) by assumption.
    rewrite Hn. reflexivity. }
  rewrite !Hnone by lia.
  rewrite finalize_assembly, calls_assembly, calls_construction, constructed_assembly.
  unfold pondered. rewrite Hn. cbn [seq List.flat_map Nat.mul app].
  rewrite !Nat.add_0_r.
  repeat split. find_in.
Qed.

Lemma depth_zero_projects_the_embedded_input_witness :
  transformer_depth depth_zero = 0 /\
  calls (emitted (universal_transformer_gpt_model depth_zero) (start "theano")) =
    [Call 0 0%nat [] None;
     Call 1 2%nat [LayerOut 0 0] None;
     Call 2 3%nat [LayerOut 1 0; LayerOut 1 1] None;
     Call 3 8%nat [LayerOut 2 0] None].
Proof.
  split; [reflexivity|].
  destruct (depth_zero_projects_the_embedded_input depth_zero (start "theano") eq_refl)
    as (_ & _ & _ & _ & _ & Hcalls & _).
  rewrite Hcalls. vm_compute. reflexivity.
Defined.

(** ** The stage *)

Lemma maybe_setup_tensorflow_spec w :
  maybe_setup_tensorflow w = (tt, world_after_setup w).
Proof.
  destruct w as [b o n t].
  unfold maybe_setup_tensorflow, world_after_setup, setup_events.
  cbv beta iota delta [backend next_obj next_node trace].
  destruct (String.eqb b "tensorflow"); run_M; cbn [negb].
  - rewrite <- app_assoc. reflexivity.
  - rewrite app_nil_r. reflexivity.
Qed.

Lemma run_spec self (scope : gmap string pyval) w v s :
  scope !! "vocabulary_size" = Some v ->
  scope !! "sequence_length" = Some s ->
  exists w',
    GPTModel.run self scope w =
      Return (<["model" :=
                PyObj (result (universal_transformer_gpt_model
                                 (GPTModel.call_arguments self s v))
                         (world_after_setup w))]> scope) w' /\
    trace w' =
      trace w ++ setup_events w ++
      emitted (universal_transformer_gpt_model (GPTModel.call_arguments self s v))
        (world_after_setup w) ++
      (if GPTModel.print_summary self
       then [Summary (result (universal_transformer_gpt_model
                                (GPTModel.call_arguments self s v))
                        (world_after_setup w))]
       else []).
Proof.
  intros Hv Hs. unfold GPTModel.run. rewrite Hv, Hs.
  unfold mbind, M_bind. rewrite maybe_setup_tensorflow_spec.
  rewrite emitted_universal_transformer_gpt_model,
    result_universal_transformer_gpt_model.
  rewrite universal_transformer_gpt_model_spec. cbv zeta.
  destruct (GPTModel.print_summary self); run_M; eexists; (split; [reflexivity|]);
    cbv beta iota delta [trace world_after_setup backend next_obj next_node];
    rewrite <- ?app_assoc, ?app_nil_r; reflexivity.
Qed.

Lemma run_raises self (scope : gmap string pyval) w :
  (scope !! "vocabulary_size" = None ->
   GPTModel.run self scope w = Raise (KeyError "vocabulary_size")) /\
  (is_Some (scope !! "vocabulary_size") -> scope !! "sequence_length" = None ->
   GPTModel.run self scope w = Raise (KeyError "sequence_length")).
Proof.
  unfold GPTModel.run. split.
  - intros ->. reflexivity.
  - intros [v ->] ->. reflexivity.
Qed.

(** The events a returning run of the stage added. *)
Lemma run_events self (scope scope' : gmap string pyval) w w' :
  GPTModel.run self scope w = Return scope' w' ->
  exists v s,
    scope !! "vocabulary_size" = Some v /\
    scope !! "sequence_length" = Some s /\
    scope' =
      <["model" :=
        PyObj (result (universal_transformer_gpt_model
                         (GPTModel.call_arguments self s v))
                 (world_after_setup w))]> scope /\
    drop (length (trace w)) (trace w') =
      setup_events w ++
      emitted (universal_transformer_gpt_model (GPTModel.call_arguments self s v))
        (world_after_setup w) ++
      (if GPTModel.print_summary self
       then [Summary (result (universal_transformer_gpt_model
                                (GPTModel.call_arguments self s v))
                        (world_after_setup w))]
       else []).
Proof.
  intros Hrun.
  destruct (scope !! "vocabulary_size") as [v|] eqn:Hv;
    [|rewrite (proj1 (run_raises self scope w) Hv) in Hrun; discriminate].
  destruct (scope !! "sequence_length") as [s|] eqn:Hs;
    [|rewrite (proj2 (run_raises self scope w)) in Hrun by eauto; discriminate].
  exists v, s. split; [reflexivity|]. split; [reflexivity|].
  destruct (run_spec self scope w v s Hv Hs) as (w'' & Hrun' & Htrace).
  rewrite Hrun' in Hrun. injection Hrun as <- <-. split; [reflexivity|].
  rewrite Htrace. apply drop_app_length.
Qed.

(** Neither the session setup nor the summary calls a layer or passes a
    [step]; the summary constructs nothing. *)
Lemma calls_to_stage l w evs model (b : bool) :
  calls_to l (setup_events w ++ evs ++ (if b then [Summary model] else [])) =
  calls_to l evs.
Proof.
  rewrite !calls_to_app. unfold setup_events.
  destruct (String.eqb (backend w) "tensorflow"), b; cbn; rewrite app_nil_r; reflexivity.
Qed.

Lemma has_step_stage w evs model (b : bool) :
  List.filter has_step (setup_events w ++ evs ++ (if b then [Summary model] else [])) =
  List.filter has_step evs.
Proof.
  rewrite !List.filter_app. unfold setup_events.
  destruct (String.eqb (backend w) "tensorflow"), b; cbn; rewrite app_nil_r; reflexivity.
Qed.

Lemma constructed_stage w evs model (b : bool) :
  constructed (setup_events w ++ evs ++ (if b then [Summary model] else [])) =
  constructed (setup_events w) ++ constructed evs.
Proof.
  rewrite !constructed_app. destruct b; cbn; rewrite app_nil_r; reflexivity.
Qed.

(** C6 (convolutions replace coordinate embeddings).  The stage always passes
    [use_coordinate_embeddings] as the negation of its [use_convolutions]
    argument.  So when the stage runs with [use_convolutions] set and
    returns, the one coordinate-embedding layer among the objects it
    constructed is never called, and no layer call carries a [step]. *)
Theorem convolutions_leave_coordinate_embedding_unused
    (self : GPTModel.arguments) (scope scope' : gmap string pyval) (w w' : world) :
  GPTModel.use_convolutions self = true ->
  GPTModel.run self scope w = Return scope' w' ->
  let evs := drop (length (trace w)) (trace w') in
  (forall s v : pyval,
     use_coordinate_embeddings (GPTModel.call_arguments self s v) =
     negb (use_convolutions (GPTModel.call_arguments self s v))) /\
  exists ce : objid,
    constructed_where is_TransformerCoordinateEmbedding evs =
      [(ce, TransformerCoordinateEmbedding (GPTModel.depth self)
              "coordinate_embedding")] /\
    calls_to ce evs = [] /\
    List.filter has_step evs = [].
Proof.
  intros Hconv Hrun. cbv zeta. split; [reflexivity|].
  destruct (run_events self scope scope' w w' Hrun) as (v & s & _ & _ & _ & ->).
  assert (Hc : use_convolutions (GPTModel.call_arguments self s v) = true)
    by exact Hconv.
  assert (Hk : use_coordinate_embeddings (GPTModel.call_arguments self s v) = false)
    by (cbn; rewrite Hconv; reflexivity).
  assert (Hd : transformer_depth (GPTModel.call_arguments self s v) = GPTModel.depth self)
    by reflexivity.
  revert Hc Hk Hd. generalize (GPTModel.call_arguments self s v). intros h Hc Hk Hd.
  rewrite <- Hd.
  closed_form w ls Hls Hreg.
  pose proof Hls as (H0 & H1 & H2 & H3 & H4 & H5 & H6).
  exists (coordinate_embedding_layer ls).
  rewrite calls_to_stage, has_step_stage.
  unfold constructed_where. rewrite constructed_stage.
  split; [|split].
  - rewrite constructed_assembly, !List.filter_app. unfold setup_events.
    destruct (l2_regularizer ls), (String.eqb (backend w) "tensorflow"); reflexivity.
  - apply length_zero_iff_nil.
    rewrite length_calls_to_inside_loop
      with (o := next_obj (world_after_setup w)) by (assumption || lia).
    unfold stages. rewrite Hc, Hk.
    cbn [app List.filter fst]; decide_ids; cbn [length]; lia.
  - unfold construction_events, wiring_events.
    change (?ev :: ?a ++ ?b) with ([ev] ++ a ++ b).
    rewrite !List.filter_app, filter_flat_map.
    rewrite (flat_map_nil (fun j => List.filter has_step
               (iteration h ls (S (next_node (world_after_setup w))) j))).
    + destruct (penalize_confidence h), (l2_regularizer ls); reflexivity.
    + intros j. unfold iteration. apply filter_chain_nil.
      unfold stages. rewrite Hc, Hk.
      intros n l ins step [Hin|[Hin|[Hin|[]]]]; inversion Hin; reflexivity.
Qed.

Lemma convolutions_leave_coordinate_embedding_unused_witness :
  GPTModel.use_convolutions with_convolutions = true /\
  exists scope' w',
    GPTModel.run with_convolutions wikitext_scope (start "tensorflow") =
      Return scope' w' /\
    exists ce : objid,
      constructed_where is_TransformerCoordinateEmbedding
        (drop (length (trace (start "tensorflow"))) (trace w')) =
        [(ce, TransformerCoordinateEmbedding 6 "coordinate_embedding")] /\
      calls_to ce (drop (length (trace (start "tensorflow"))) (trace w')) = [].
Proof.
  split; [reflexivity|].
  destruct (GPTModel.run with_convolutions wikitext_scope (start "tensorflow"))
    as [err|scope' w'] eqn:Hrun; [vm_compute in Hrun; discriminate|].
  exists scope', w'. split; [reflexivity|].
  destruct (convolutions_leave_coordinate_embedding_unused
              with_convolutions wikitext_scope scope' (start "tensorflow") w'
              eq_refl Hrun) as (_ & ce & Hce & Hcalls & _).
  exists ce. split; assumption.
Defined.

(** C9 (what the stage reads and writes).  A run of the stage raises
    [KeyError] exactly when [vocabulary_size] or, after it,
    [sequence_length] is missing from the scope.  Otherwise it returns the
    scope with the model it constructed stored under ["model"] and every
    other key as it was.  Nothing else of the scope is read: on a second
    scope that agrees with the first on the two keys the stage fails the same
    way or does the same to the interpreter, stores the same model, and again
    leaves every other key alone. *)
Theorem run_reads_two_keys_and_writes_model
    (self : GPTModel.arguments) (scope : gmap string pyval) (w : world) :
  match GPTModel.run self scope w with
  | Raise err =>
      (scope !! "vocabulary_size" = None /\ err = KeyError "vocabulary_size") \/
      (is_Some (scope !! "vocabulary_size") /\
       scope !! "sequence_length" = None /\ err = KeyError "sequence_length")
  | Return scope' w' =>
      is_Some (scope !! "vocabulary_size") /\
      is_Some (scope !! "sequence_length") /\
      exists (model : objid) (ins outs : list tensor),
        scope' = <["model" := PyObj model]> scope /\
        In (model, Model ins outs)
           (constructed (drop (length (trace w)) (trace w'))) /\
        forall key : string, key <> "model" -> scope' !! key = scope !! key
  end /\
  forall other : gmap string pyval,
    other !! "vocabulary_size" = scope !! "vocabulary_size" ->
    other !! "sequence_length" = scope !! "sequence_length" ->
    match GPTModel.run self scope w, GPTModel.run self other w with
    | Raise e1, Raise e2 => e1 = e2
    | Return s1 w1, Return s2 w2 =>
        w1 = w2 /\ s1 !! "model" = s2 !! "model" /\
        forall key : string, key <> "model" -> s2 !! key = other !! key
    | _, _ => False
    end.
Proof.
  split.
  - destruct (GPTModel.run self scope w) as [err|scope' w'] eqn:Hrun.
    + destruct (scope !! "vocabulary_size") as [v|] eqn:Hv.
      * destruct (scope !! "sequence_length") as [s|] eqn:Hs.
        -- destruct (run_spec self scope w v s Hv Hs) as (w'' & Hrun' & _).
           rewrite Hrun' in Hrun. discriminate.
        -- rewrite (proj2 (run_raises self scope w)) in Hrun by eauto.
           injection Hrun as <-. right. eauto.
      * rewrite (proj1 (run_raises self scope w) Hv) in Hrun.
        injection Hrun as <-. left. eauto.
    + destruct (run_events self scope scope' w w' Hrun)
        as (v & s & Hv & Hs & -> & ->).
      split; [eauto|]. split; [eauto|].
      eexists _, _, _. split; [reflexivity|]. split.
      * rewrite constructed_stage. apply in_or_app. right.
        rewrite emitted_universal_transformer_gpt_model,
          result_universal_transformer_gpt_model, constructed_assembly.
        find_in.
      * intros key Hkey. apply lookup_insert_ne. congruence.
  - intros other Hv Hs. unfold GPTModel.run. rewrite Hv, Hs.
    destruct (scope !! "vocabulary_size") as [v|]; [|reflexivity].
    destruct (scope !! "sequence_length") as [s|]; [|reflexivity].
    match goal with
    | |- context [let '(model, w') := ?m in _] => destruct m as [model w']
    end.
    split; [reflexivity|]. split.
    + rewrite !lookup_insert_eq. reflexivity.
    + intros key Hkey. apply lookup_insert_ne. congruence.
Qed.

(** ** More about the assembler *)

Lemma length_chain st : forall x n, length (chain st x n) = length st.
Proof.
  induction st as [|[l step] st IH]; intros x n; [reflexivity|].
  cbn. rewrite IH. reflexivity.
Qed.

(** A call inside a chain entered with the output of node [p] reads the
    first output of the node just before it. *)
Lemma in_chain st : forall p nd l ins step,
  In (Call nd l ins step) (chain st (LayerOut p 0) (S p)) ->
  (p < nd <= p + length st)%nat /\ ins = [LayerOut (nd - 1) 0] /\ In (l, step) st.
Proof.
  induction st as [|[l0 s0] st IH]; intros p nd l ins step Hin; [destruct Hin|].
  cbn [chain] in Hin. destruct Hin as [Heq|Hin].
  - injection Heq as <- <- <- <-. cbn [length Nat.sub]. rewrite Nat.sub_0_r.
    split; [lia|]. split; [reflexivity|]. left. reflexivity.
  - apply IH in Hin. destruct Hin as (Hp & Hins & Hl). cbn [length].
    split; [lia|]. split; [exact Hins|]. right. exact Hl.
Qed.

Lemma in_stages h ls i l step :
  In (l, step) (stages h ls i) ->
  In l [conv_layer ls; coordinate_embedding_layer ls;
        transformer_block ls; transformer_act_layer ls].
Proof.
  unfold stages.
  destruct (use_convolutions h), (use_coordinate_embeddings h); cbn [app];
    intros Hin;
    repeat (destruct Hin as [Hin|Hin]; [injection Hin as <- _; cbn; tauto|]);
    destruct Hin.
Qed.

(** Every layer call of a run is one of five kinds. *)
Lemma in_assembly_call h ls o n m e nd l ins step :
  let q := (e + iterations h * calls_per_step h)%nat in
  In (Call nd l ins step)
     (construction_events h ls o n ++ wiring_events h ls m e) ->
  (nd = n /\ l = o /\ ins = []) \/
  (nd = e /\ l = embedding_layer ls /\ ins = [word_ids ls]) \/
  ((e < nd <= q)%nat /\ ins = [LayerOut (nd - 1) 0] /\
   In l [conv_layer ls; coordinate_embedding_layer ls;
         transformer_block ls; transformer_act_layer ls]) \/
  (nd = S q /\ l = output_layer ls /\ ins = [pondered h e; LayerOut e 1]) \/
  (nd = S (S q) /\ l = output_softmax_layer ls /\ ins = [LayerOut (S q) 0]).
Proof.
  cbv zeta. intros Hin.
  assert (Hc : In (Call nd l ins step)
                 (calls (construction_events h ls o n ++ wiring_events h ls m e)))
    by (apply filter_In; split; [exact Hin | reflexivity]).
  rewrite calls_assembly in Hc.
  destruct Hc as [Hc|[Hc|Hc]].
  - injection Hc as <- <- <- _. tauto.
  - injection Hc as <- <- <- _. tauto.
  - apply in_app_or in Hc. destruct Hc as [Hc|[Hc|[Hc|[]]]].
    + apply in_flat_map in Hc. destruct Hc as (j & Hj & Hc).
      apply in_seq in Hj. unfold iteration in Hc.
      apply in_chain in Hc. destruct Hc as (Hnd & Hins & Hl).
      rewrite length_stages in Hnd. apply in_stages in Hl.
      assert (S j * calls_per_step h <= iterations h * calls_per_step h)%nat
        by (apply Nat.mul_le_mono_r; lia).
      right. right. left. split; [lia|]. split; assumption.
    + injection Hc as <- <- <- _. tauto.
    + injection Hc as <- <- <- _. tauto.
Qed.

Lemma word_ids_layers_from h o n : word_ids (layers_from h o n) = LayerOut n 0.
Proof. reflexivity. Qed.

(** As [closed_form], keeping what [word_ids] is. *)
Ltac closed_form_ids w ls Hls Hreg Hids :=
  cbv zeta;
  rewrite ?result_universal_transformer_gpt_model,
    ?emitted_universal_transformer_gpt_model, ?emitted_construct_layers,
    ?result_construct_layers, ?next_node_after_construct_layers;
  match goal with
  | |- context [layers_from ?h ?o ?n] =>
      pose proof (layers_from_consecutive h o n) as Hls;
      pose proof (l2_regularizer_layers_from h o n) as Hreg;
      pose proof (word_ids_layers_from h o n) as Hids;
      set (ls := layers_from h o n) in *;
      clearbody ls
  end.

(** X1 (the graph is closed).  Every tensor a run feeds to a layer is an
    output of a layer call made earlier in the same run: no layer reads a
    tensor from before the run, a backend tensor, or the output of a later
    call. *)
Theorem layer_inputs_come_from_earlier_calls (h : hyperparams) (w : world) :
  let evs := emitted (universal_transformer_gpt_model h) w in
  Forall
    (fun ev =>
       match ev with
       | Call nd _ ins _ =>
           Forall (fun t => exists m k : nat,
                     t = LayerOut m k /\ (next_node w <= m < nd)%nat) ins
       | _ => True
       end) evs.
Proof.
  closed_form_ids w ls Hls Hreg Hids.
  apply Forall_forall. intros [o what|nd l ins step|l|t|m t|m|o] Hin; try exact I.
  apply list_elem_of_In in Hin.
  apply in_assembly_call in Hin. cbv zeta in Hin.
  apply Forall_forall. intros t Ht. apply list_elem_of_In in Ht.
  destruct Hin as [(-> & _ & ->)|[(-> & _ & ->)|[(Hnd & -> & _)|
                   [(-> & _ & ->)|(-> & _ & ->)]]]].
  - destruct Ht.
  - destruct Ht as [<-|[]]. rewrite Hids. eexists _, _. split; [reflexivity|lia].
  - destruct Ht as [<-|[]]. eexists _, _. split; [reflexivity|lia].
  - unfold pondered in Ht.
    destruct Ht as [<-|[<-|[]]].
    + destruct (iterations h); eexists _, _; (split; [reflexivity|lia]).
    + eexists _, _. split; [reflexivity|lia].
  - destruct Ht as [<-|[]]. eexists _, _. split; [reflexivity|lia].
Qed.

(** X2 (second outputs).  The only layer that ever reads a second output
    of a call is the output projection (which reads the embedding matrix and
    the accumulated ACT output): the accumulated outputs of all ACT calls but
    the last are read by nothing, and the loop carries only first outputs. *)
Theorem only_the_projection_reads_second_outputs (h : hyperparams) (w : world) :
  let ls := result (construct_layers h) w in
  let evs := emitted (universal_transformer_gpt_model h) w in
  Forall
    (fun ev =>
       match ev with
       | Call _ l ins _ =>
           (exists m : nat, In (LayerOut m 1) ins) -> l = output_layer ls
       | _ => True
       end) evs.
Proof.
  closed_form_ids w ls Hls Hreg Hids.
  apply Forall_forall. intros [o what|nd l ins step|l|t|m t|m|o] Hin; try exact I.
  apply list_elem_of_In in Hin.
  apply in_assembly_call in Hin. cbv zeta in Hin.
  intros (m & Hm).
  destruct Hin as [(_ & _ & ->)|[(_ & _ & ->)|[(_ & -> & _)|
                   [(_ & -> & _)|(_ & _ & ->)]]]];
    try reflexivity; rewrite ?Hids in Hm;
    repeat (destruct Hm as [Hm|Hm]; [discriminate Hm|]); destruct Hm.
Qed.

(** X3 (size of the graph).  A run makes exactly
    [4 + depth * (2 + c + p)] layer calls, where [depth] is
    [transformer_depth] (0 when negative), [c] is 1 with convolutions and
    [p] is 1 with coordinate embeddings; the node counter advances by as
    much. *)
Theorem number_of_layer_calls (h : hyperparams) (w : world) :
  let evs := emitted (universal_transformer_gpt_model h) w in
  let per_step :=
    (2 + (if use_convolutions h then 1 else 0) +
         (if use_coordinate_embeddings h then 1 else 0))%nat in
  length (calls evs) = (4 + Z.to_nat (transformer_depth h) * per_step)%nat /\
  next_node (after (universal_transformer_gpt_model h) w) =
    (next_node w + length (calls evs))%nat.
Proof.
  cbv zeta. unfold after. rewrite universal_transformer_gpt_model_spec.
  rewrite emitted_universal_transformer_gpt_model, calls_assembly.
  cbn [length next_node]. rewrite length_app.
  rewrite length_flat_map_const with (k := calls_per_step h)
    by (intros j; unfold iteration; rewrite length_chain; apply length_stages).
  rewrite length_seq. unfold iterations, calls_per_step.
  cbn [length snd next_node].
  split; destruct (use_convolutions h), (use_coordinate_embeddings h); lia.
Qed.

Lemma filter_calls (f : event -> bool) evs :
  (forall ev, f ev = true -> is_call ev = true) ->
  List.filter f (calls evs) = List.filter f evs.
Proof.
  intros Hf. unfold calls. induction evs as [|ev evs IH]; [reflexivity|].
  cbn [List.filter]. destruct (is_call ev) eqn:Hc.
  - cbn [List.filter]. rewrite IH. reflexivity.
  - destruct (f ev) eqn:Hfe; [|exact IH].
    apply Hf in Hfe. congruence.
Qed.

Lemma flat_map_singleton {A B : Type} (f : A -> B) (l : list A) :
  List.flat_map (fun x => [f x]) l = List.map f l.
Proof.
  induction l as [|x l IH]; [reflexivity|]. cbn. rewrite IH. reflexivity.
Qed.

Lemma steps_app evs1 evs2 : steps (evs1 ++ evs2) = steps evs1 ++ steps evs2.
Proof. apply flat_map_app. Qed.

Lemma steps_flat_map {A : Type} (g : A -> list event) (l : list A) :
  steps (List.flat_map g l) = List.flat_map (fun x => steps (g x)) l.
Proof.
  induction l as [|x l IH]; [reflexivity|].
  cbn [List.flat_map]. rewrite steps_app, IH. reflexivity.
Qed.

Section InsideLoop.

Variables (h : hyperparams) (ls : layers) (o n m e : nat).
Hypothesis Hls : consecutive o ls.

Local Abbreviation assembly :=
  (construction_events h ls o n ++ wiring_events h ls m e).
Local Abbreviation loop := (List.flat_map (iteration h ls e) (seq 0 (iterations h))).

(** A filter that passes none of the four calls outside the loop, and no
    event that is not a call, sees only the loop. *)
Lemma filter_assembly_loop (f : event -> bool) :
  (forall ev, f ev = true -> is_call ev = true) ->
  (forall nd ins, f (Call nd o ins None) = false) ->
  (forall nd ins, f (Call nd (embedding_layer ls) ins None) = false) ->
  (forall nd ins, f (Call nd (output_layer ls) ins None) = false) ->
  (forall nd ins, f (Call nd (output_softmax_layer ls) ins None) = false) ->
  List.filter f assembly = List.filter f loop.
Proof.
  intros Hf H1 H2 H3 H4.
  rewrite <- (filter_calls f assembly Hf), calls_assembly.
  cbn [List.filter]. rewrite H1, H2, List.filter_app.
  cbn [List.filter]. rewrite H3, H4. apply app_nil_r.
Qed.

Lemma calls_to_inside_loop l :
  l <> o -> l <> embedding_layer ls ->
  l <> output_layer ls -> l <> output_softmax_layer ls ->
  calls_to l assembly = calls_to l loop.
Proof.
  intros H1 H2 H3 H4. unfold calls_to. apply filter_assembly_loop.
  - intros [| | | | | |]; cbn; congruence.
  - intros; cbn. apply Nat.eqb_neq. congruence.
  - intros; cbn. apply Nat.eqb_neq. congruence.
  - intros; cbn. apply Nat.eqb_neq. congruence.
  - intros; cbn. apply Nat.eqb_neq. congruence.
Qed.

Lemma has_step_assembly :
  List.filter has_step assembly = List.filter has_step loop.
Proof.
  apply filter_assembly_loop; try reflexivity.
  intros [| | | | | |]; cbn; congruence.
Qed.

Lemma steps_assembly : steps assembly = steps loop.
Proof.
  rewrite steps_app. unfold wiring_events.
  change (?ev :: ?a ++ ?b) with ([ev] ++ a ++ b).
  rewrite !steps_app. unfold construction_events.
  destruct (l2_regularizer ls), (penalize_confidence h); cbn; apply app_nil_r.
Qed.

End InsideLoop.

(** X4 (depth steps).  The [step] keywords a run passes are, when coordinate
    embeddings are on, exactly [0, 1, ..., transformer_depth - 1] in this
    order, one per iteration, and none otherwise; the calls that carry one
    are exactly the calls of the coordinate-embedding layer. *)
Theorem coordinate_embedding_gets_each_depth_step (h : hyperparams) (w : world) :
  let ls := result (construct_layers h) w in
  let evs := emitted (universal_transformer_gpt_model h) w in
  steps evs =
    (if use_coordinate_embeddings h
     then List.map Z.of_nat (seq 0 (Z.to_nat (transformer_depth h)))
     else []) /\
  List.filter has_step evs = calls_to (coordinate_embedding_layer ls) evs.
Proof.
  closed_form w ls Hls Hreg.
  pose proof Hls as (H0 & H1 & H2 & H3 & H4 & H5 & H6).
  split.
  - rewrite steps_assembly, steps_flat_map. fold (iterations h).
    destruct (use_coordinate_embeddings h) eqn:Hk.
    + rewrite <- flat_map_singleton. apply flat_map_ext; intros j.
      unfold iteration, stages. rewrite Hk.
      destruct (use_convolutions h); reflexivity.
    + apply flat_map_nil; intros j.
      unfold iteration, stages. rewrite Hk.
      destruct (use_convolutions h); reflexivity.
  - rewrite has_step_assembly.
    rewrite calls_to_inside_loop with (o := next_obj w) by lia.
    unfold calls_to. rewrite !filter_flat_map. apply flat_map_ext; intros j.
    unfold iteration, stages.
    destruct (use_convolutions h), (use_coordinate_embeddings h);
      cbn [app chain List.filter has_step is_call_to]; decide_ids; reflexivity.
Qed.

(** X5 (the ACT controller reads the block).  A run calls the ACT controller
    and the transformer block equally often, and the input of the i-th ACT
    call is the first output of the i-th transformer-block call: in every
    iteration the controller reads the block's output directly. *)
Theorem act_controller_reads_the_block_output (h : hyperparams) (w : world) :
  let ls := result (construct_layers h) w in
  let evs := emitted (universal_transformer_gpt_model h) w in
  List.map call_inputs (calls_to (transformer_act_layer ls) evs) =
  List.map first_output (calls_to (transformer_block ls) evs).
Proof.
  closed_form w ls Hls Hreg.
  pose proof Hls as (H0 & H1 & H2 & H3 & H4 & H5 & H6).
  rewrite !calls_to_inside_loop with (o := next_obj w) by lia.
  generalize (seq 0 (iterations h)). intros js.
  induction js as [|j js IH]; [reflexivity|].
  cbn [List.flat_map]. rewrite !calls_to_app, !List.map_app, IH. f_equal.
  destruct (block_and_act_calls_of_iteration h ls (next_obj w) (S (next_node w)) Hls j)
    as (x & Hb & Ha).
  rewrite Hb, Ha. reflexivity.
Qed.

(** X6 (the penalty is computed after the model exists).  The last events
    of a run are: the construction of the model, on the output [p] of the
    softmax call just before it; then exactly five backend operations, in
    evaluation order [log p], [p * log p], its sum over the last axis, the
    weighted sum, the mean; then the added loss, if any.  No backend
    operation happens earlier. *)
Theorem penalty_is_computed_after_the_model (h : hyperparams) (w : world) :
  let ls := result (construct_layers h) w in
  let evs := emitted (universal_transformer_gpt_model h) w in
  let model := result (universal_transformer_gpt_model h) w in
  exists (before : list event) (nd : nat) (logits : tensor),
    let p := LayerOut nd 0 in
    evs =
      (before ++ [Call nd (output_softmax_layer ls) [logits] None]) ++
      [New model (Model [word_ids ls] [p]);
       Backend (K_log p);
       Backend (Mul p (K_log p));
       Backend (K_sum (Mul p (K_log p)) (-1));
       Backend (ScalarMul (confidence_penalty_weight h)
                  (K_sum (Mul p (K_log p)) (-1)));
       Backend (K_mean (ScalarMul (confidence_penalty_weight h)
                          (K_sum (Mul p (K_log p)) (-1))))] ++
      (if penalize_confidence h
       then [AddLoss model
               (K_mean (ScalarMul (confidence_penalty_weight h)
                          (K_sum (Mul p (K_log p)) (-1))))]
       else []) /\
    List.filter is_backend before = [].
Proof.
  closed_form w ls Hls Hreg.
  eexists (construction_events h ls (next_obj w) (next_node w) ++
           Call (S (next_node w)) (embedding_layer ls) [word_ids ls] None ::
           List.flat_map (iteration h ls (S (next_node w))) (seq 0 (iterations h)) ++
           [Finalize (transformer_act_layer ls); Call _ _ _ None]), _, _.
  cbv zeta. split.
  - unfold wiring_events, confidence_penalty_of.
    rewrite <- !app_assoc. cbn [app]. rewrite <- !app_assoc. reflexivity.
  - change (?ev :: ?a ++ ?b) with ([ev] ++ a ++ b).
    rewrite !List.filter_app, filter_loop_nil by reflexivity.
    unfold construction_events. destruct (l2_regularizer ls); reflexivity.
Qed.

(** X7 (depth below 1).  A zero or negative [transformer_depth] makes no
    iteration: the run makes its four calls outside the loop only, the
    projection reading the two outputs of the embedding call, and still
    finalizes the ACT controller; the coordinate-embedding layer is
    constructed with the depth as given, negative or not. *)
Theorem nonpositive_depth_makes_no_iteration (h : hyperparams) (w : world) :
  transformer_depth h <= 0 ->
  let ls := result (construct_layers h) w in
  let evs := emitted (universal_transformer_gpt_model h) w in
  let e := next_node (after (construct_layers h) w) in
  length (calls evs) = 4%nat /\
  calls_to (output_layer ls) evs =
    [Call (S e) (output_layer ls) [LayerOut e 0; LayerOut e 1] None] /\
  List.filter is_finalize evs = [Finalize (transformer_act_layer ls)] /\
  In (coordinate_embedding_layer ls,
      TransformerCoordinateEmbedding (transformer_depth h) "coordinate_embedding")
     (constructed evs).
Proof.
  intros Hdepth.
  assert (Hn : iterations h = 0%nat) by (unfold iterations; lia).
  closed_form w ls Hls Hreg.
  rewrite calls_to_output_layer with (o := next_obj w) by exact Hls.
  rewrite finalize_assembly, calls_assembly, constructed_assembly.
  unfold pondered. rewrite Hn. cbn [seq List.flat_map Nat.mul app length].
  rewrite !Nat.add_0_r.
  repeat split. find_in.
Qed.

Lemma nonpositive_depth_makes_no_iteration_witness :
  transformer_depth negative_depth <= 0 /\
  length (calls (emitted (universal_transformer_gpt_model negative_depth)
                   (start "theano"))) = 4%nat.
Proof.
  assert (Hdepth : transformer_depth negative_depth <= 0) by (cbn; lia).
  split; [exact Hdepth|].
  destruct (nonpositive_depth_makes_no_iteration negative_depth (start "theano") Hdepth)
    as (Hlen & _).
  exact Hlen.
Defined.

(** X8 (what shapes the wiring).  The sequence of layer calls of a run, and
    the identity of the model it returns, depend only on the depth, the two
    toggles and the truth value of the L2 penalty: two calls that agree on
    these make the same calls, whatever their sizes, head counts, dropout
    rates, penalty weights and attention variant. *)
Theorem wiring_depends_on_depth_and_toggles_only (h h' : hyperparams) (w : world) :
  transformer_depth h = transformer_depth h' ->
  use_convolutions h = use_convolutions h' ->
  use_coordinate_embeddings h = use_coordinate_embeddings h' ->
  truthy (l2_reg_penalty h) = truthy (l2_reg_penalty h') ->
  calls (emitted (universal_transformer_gpt_model h) w) =
    calls (emitted (universal_transformer_gpt_model h') w) /\
  result (universal_transformer_gpt_model h) w =
    result (universal_transformer_gpt_model h') w.
Proof.
  intros Hd Hc Hk Ht.
  rewrite !result_universal_transformer_gpt_model,
    !emitted_universal_transformer_gpt_model, !calls_assembly.
  assert (Hls : layers_from h (next_obj w) (next_node w) =
                layers_from h' (next_obj w) (next_node w))
    by (unfold layers_from; rewrite Ht; reflexivity).
  assert (Hn : iterations h = iterations h')
    by (unfold iterations; rewrite Hd; reflexivity).
  assert (Hp : calls_per_step h = calls_per_step h')
    by (unfold calls_per_step; rewrite Hc, Hk; reflexivity).
  rewrite <- Hls. split; [|reflexivity].
  unfold pondered. rewrite <- Hn, <- Hp. do 3 f_equal.
  apply flat_map_ext; intros j.
  unfold iteration, stages. rewrite Hc, Hk, Hp. reflexivity.
Qed.

Lemma wiring_depends_on_depth_and_toggles_only_witness :
  transformer_depth small_model = transformer_depth large_model /\
  use_convolutions small_model = use_convolutions large_model /\
  use_coordinate_embeddings small_model = use_coordinate_embeddings large_model /\
  truthy (l2_reg_penalty small_model) = truthy (l2_reg_penalty large_model) /\
  calls (emitted (universal_transformer_gpt_model small_model) (start "theano")) =
    calls (emitted (universal_transformer_gpt_model large_model) (start "theano")).
Proof.
  split; [reflexivity|]. split; [reflexivity|]. split; [reflexivity|].
  split; [reflexivity|].
  destruct (wiring_depends_on_depth_and_toggles_only
              small_model large_model (start "theano")
              eq_refl eq_refl eq_refl eq_refl) as (Hcalls & _).
  exact Hcalls.
Defined.

(** ** More about the stage *)

(** The state a returning run of the stage leaves. *)
Lemma run_world self (scope : gmap string pyval) w v s :
  scope !! "vocabulary_size" = Some v ->
  scope !! "sequence_length" = Some s ->
  exists w',
    GPTModel.run self scope w =
      Return (<["model" :=
                PyObj (result (universal_transformer_gpt_model
                                 (GPTModel.call_arguments self s v))
                         (world_after_setup w))]> scope) w' /\
    backend w' = backend w /\
    next_obj w' =
      S (result (universal_transformer_gpt_model
                   (GPTModel.call_arguments self s v))
           (world_after_setup w)).
Proof.
  intros Hv Hs. unfold GPTModel.run. rewrite Hv, Hs.
  unfold mbind, M_bind. rewrite maybe_setup_tensorflow_spec.
  rewrite result_universal_transformer_gpt_model.
  rewrite universal_transformer_gpt_model_spec. cbv zeta.
  destruct (GPTModel.print_summary self); run_M; eexists;
    (split; [reflexivity|]); split; reflexivity.
Qed.

(** The assembler neither installs a session nor prints a summary. *)
Lemma filter_assembly_nil (f : event -> bool) h ls o n m e :
  (forall o' what, f (New o' what) = false) ->
  (forall nd l ins step, f (Call nd l ins step) = false) ->
  (forall l, f (Finalize l) = false) ->
  (forall t, f (Backend t) = false) ->
  (forall m' t, f (AddLoss m' t) = false) ->
  List.filter f (construction_events h ls o n ++ wiring_events h ls m e) = [].
Proof.
  intros HN HC HF HB HA. unfold wiring_events, construction_events.
  change (?ev :: ?a ++ ?b) with ([ev] ++ a ++ b).
  rewrite !List.filter_app, filter_loop_nil by exact HC.
  destruct (l2_regularizer ls), (penalize_confidence h);
    cbn [List.filter app]; rewrite ?HN, ?HC, ?HF, ?HB, ?HA; reflexivity.
Qed.

(** X9 (session setup).  A returning run of the stage constructs and
    installs a session exactly when the Keras backend is ["tensorflow"]; it
    is then a session with growing GPU memory and JIT level [ON_1], and its
    construction and installation are the first two events, before any layer
    is constructed.  Nothing later touches a session, and the backend is
    left as it was. *)
Theorem session_first_and_only_under_tensorflow
    (self : GPTModel.arguments) (scope scope' : gmap string pyval) (w w' : world) :
  GPTModel.run self scope w = Return scope' w' ->
  let evs := drop (length (trace w)) (trace w') in
  exists rest : list event,
    evs =
      (if String.eqb (backend w) "tensorflow"
       then [New (next_obj w) (Session true "ON_1"); SetSession (next_obj w)]
       else []) ++ rest /\
    constructed_where is_Session rest = [] /\
    List.filter is_set_session rest = [] /\
    backend w' = backend w.
Proof.
  intros Hrun. cbv zeta.
  destruct (run_events self scope scope' w w' Hrun) as (v & s & Hv & Hs & _ & ->).
  destruct (run_world self scope w v s Hv Hs) as (w'' & Hrun' & Hb & _).
  rewrite Hrun' in Hrun. injection Hrun as _ <-.
  eexists. split; [reflexivity|].
  generalize (GPTModel.call_arguments self s v). intros h.
  closed_form w ls Hls Hreg.
  split; [|split; [|exact Hb]].
  - unfold constructed_where.
    rewrite constructed_app, constructed_assembly, !List.filter_app.
    destruct (l2_regularizer ls), (GPTModel.print_summary self); reflexivity.
  - rewrite List.filter_app, filter_assembly_nil by reflexivity.
    destruct (GPTModel.print_summary self); reflexivity.
Qed.

Lemma session_first_and_only_under_tensorflow_witness :
  exists scope' w',
    GPTModel.run with_convolutions wikitext_scope (start "tensorflow") =
      Return scope' w' /\
    exists rest : list event,
      drop (length (trace (start "tensorflow"))) (trace w') =
        [New 0%nat (Session true "ON_1"); SetSession 0%nat] ++ rest /\
      constructed_where is_Session rest = [].
Proof.
  destruct (GPTModel.run with_convolutions wikitext_scope (start "tensorflow"))
    as [err|scope' w'] eqn:Hrun; [vm_compute in Hrun; discriminate|].
  exists scope', w'. split; [reflexivity|].
  destruct (session_first_and_only_under_tensorflow
              with_convolutions wikitext_scope scope' (start "tensorflow") w' Hrun)
    as (rest & Hevs & Hrest & _).
  exists rest. split; [exact Hevs | exact Hrest].
Defined.

(** X10 (summary).  A returning run of the stage prints a summary exactly
    when [print_summary] is set: then once, of the model it stores in the
    scope, and as its very last action, after the model is complete. *)
Theorem summary_last_and_only_on_request
    (self : GPTModel.arguments) (scope scope' : gmap string pyval) (w w' : world) :
  GPTModel.run self scope w = Return scope' w' ->
  let evs := drop (length (trace w)) (trace w') in
  exists model : objid,
    scope' !! "model" = Some (PyObj model) /\
    List.filter is_summary evs =
      (if GPTModel.print_summary self then [Summary model] else []) /\
    (if GPTModel.print_summary self
     then last evs = Some (Summary model)
     else True).
Proof.
  intros Hrun. cbv zeta.
  destruct (run_events self scope scope' w w' Hrun) as (v & s & _ & _ & -> & ->).
  eexists. split; [apply lookup_insert_eq|].
  generalize (GPTModel.call_arguments self s v). intros h.
  closed_form w ls Hls Hreg.
  split.
  - do 2 rewrite List.filter_app. rewrite filter_assembly_nil by reflexivity.
    unfold setup_events.
    destruct (String.eqb (backend w) "tensorflow"), (GPTModel.print_summary self);
      reflexivity.
  - destruct (GPTModel.print_summary self); [|exact I].
    rewrite !app_assoc. apply last_snoc.
Qed.

Lemma summary_last_and_only_on_request_witness :
  exists scope' w',
    GPTModel.run with_convolutions wikitext_scope (start "theano") =
      Return scope' w' /\
    exists model : objid,
      scope' !! "model" = Some (PyObj model) /\
      List.filter is_summary (drop (length (trace (start "theano"))) (trace w')) = [].
Proof.
  destruct (GPTModel.run with_convolutions wikitext_scope (start "theano"))
    as [err|scope' w'] eqn:Hrun; [vm_compute in Hrun; discriminate|].
  exists scope', w'. split; [reflexivity|].
  destruct (summary_last_and_only_on_request
              with_convolutions wikitext_scope scope' (start "theano") w' Hrun)
    as (model & Hmodel & Hsummary & _).
  exists model. split; [exact Hmodel | exact Hsummary].
Defined.

(** X11 (what the stage builds).  A returning run of the stage builds the
    model from its arguments and the two scope entries, with the defaults of
    the assembler's signature for the rest: the embedding takes
    [vocabulary_size], [width] and [sequence_length]; one L2 regularizer of
    strength 1e-6 is shared by the embedding and the output projection, whose
    dropout is 0.6; the convolution takes [width] and [convolution_width];
    the coordinate embedding takes [depth]; the transformer block takes
    [num_heads], dropout 0.1 twice, masking, and [use_agglomeration].  No
    loss is ever added: the stage leaves [penalize_confidence] off. *)
Theorem stage_builds_with_signature_defaults
    (self : GPTModel.arguments) (scope scope' : gmap string pyval) (w w' : world) :
  GPTModel.run self scope w = Return scope' w' ->
  let evs := drop (length (trace w)) (trace w') in
  exists (v s : pyval) (r emb out cv ce tb : objid),
    scope !! "vocabulary_size" = Some v /\
    scope !! "sequence_length" = Some s /\
    constructed_where is_L2 evs = [(r, L2 (PyFloat 1e-6%float))] /\
    In (emb, ReusableEmbedding v (GPTModel.width self) s "bpe_embeddings" (Some r))
       (constructed evs) /\
    In (out, TiedOutputEmbedding (Some r) 0.6%float "word_prediction_logits")
       (constructed evs) /\
    In (cv, Conv1D (GPTModel.width self) (GPTModel.convolution_width self)
              "causal" "relu" "he_uniform" "convolution")
       (constructed evs) /\
    In (ce, TransformerCoordinateEmbedding (GPTModel.depth self)
              "coordinate_embedding")
       (constructed evs) /\
    In (tb, TransformerBlock "transformer" (GPTModel.num_heads self)
              0.1%float 0.1%float true false (GPTModel.use_agglomeration self))
       (constructed evs) /\
    List.filter is_add_loss evs = [].
Proof.
  intros Hrun. cbv zeta.
  destruct (run_events self scope scope' w w' Hrun) as (v & s & Hv & Hs & _ & ->).
  exists v, s.
  assert (Hp : penalize_confidence (GPTModel.call_arguments self s v) = false)
    by reflexivity.
  assert (Ht : truthy (l2_reg_penalty (GPTModel.call_arguments self s v)) = true)
    by reflexivity.
  rewrite constructed_stage. unfold constructed_where.
  rewrite constructed_stage, !List.filter_app.
  rewrite emitted_universal_transformer_gpt_model, constructed_assembly.
  rewrite l2_regularizer_layers_from, Ht.
  do 2 rewrite List.filter_app. rewrite add_loss_assembly, Hp.
  set (ls := layers_from (GPTModel.call_arguments self s v)
               (next_obj (world_after_setup w)) (next_node (world_after_setup w))).
  exists (S (next_obj (world_after_setup w))), (embedding_layer ls),
    (output_layer ls), (conv_layer ls), (coordinate_embedding_layer ls),
    (transformer_block ls).
  split; [exact Hv|]. split; [exact Hs|].
  split; [unfold setup_events;
          destruct (String.eqb (backend w) "tensorflow"); reflexivity|].
  split; [apply in_or_app; right; find_in|].
  split; [apply in_or_app; right; find_in|].
  split; [apply in_or_app; right; find_in|].
  split; [apply in_or_app; right; find_in|].
  split; [apply in_or_app; right; find_in|].
  unfold setup_events.
  destruct (String.eqb (backend w) "tensorflow"), (GPTModel.print_summary self);
    reflexivity.
Qed.

Lemma stage_builds_with_signature_defaults_witness :
  exists scope' w',
    GPTModel.run with_convolutions wikitext_scope (start "theano") =
      Return scope' w' /\
    List.filter is_add_loss
      (drop (length (trace (start "theano"))) (trace w')) = [].
Proof.
  destruct (GPTModel.run with_convolutions wikitext_scope (start "theano"))
    as [err|scope' w'] eqn:Hrun; [vm_compute in Hrun; discriminate|].
  exists scope', w'. split; [reflexivity|].
  destruct (stage_builds_with_signature_defaults
              with_convolutions wikitext_scope scope' (start "theano") w' Hrun)
    as (v & s & r & emb & out & cv & ce & tb & _ & _ & _ & _ & _ & _ & _ & _ & Hloss).
  exact Hloss.
Defined.

(** X12 (running the stage again).  The scope a run of the stage returns
    still holds the two keys, so the stage can be run on it again, in the
    state the first run left: the second run returns too, stores a model
    with a new identity in place of the first, and leaves every other key as
    it was before the first run. *)
Theorem stage_can_be_rerun_on_its_result
    (self : GPTModel.arguments) (scope scope1 : gmap string pyval) (w w1 : world) :
  GPTModel.run self scope w = Return scope1 w1 ->
  exists (scope2 : gmap string pyval) (w2 : world) (model1 model2 : objid),
    GPTModel.run self scope1 w1 = Return scope2 w2 /\
    scope1 !! "model" = Some (PyObj model1) /\
    scope2 !! "model" = Some (PyObj model2) /\
    (model1 < model2)%nat /\
    forall key : string, key <> "model" -> scope2 !! key = scope !! key.
Proof.
  intros Hrun.
  destruct (run_events self scope scope1 w w1 Hrun) as (v & s & Hv & Hs & Hscope & _).
  destruct (run_world self scope w v s Hv Hs) as (w1' & Hrun' & _ & Hnext).
  rewrite Hrun' in Hrun. injection Hrun as _ <-.
  assert (Hv1 : scope1 !! "vocabulary_size" = Some v)
    by (rewrite Hscope, lookup_insert_ne by congruence; exact Hv).
  assert (Hs1 : scope1 !! "sequence_length" = Some s)
    by (rewrite Hscope, lookup_insert_ne by congruence; exact Hs).
  destruct (run_world self scope1 w1' v s Hv1 Hs1) as (w2 & Hrun2 & _ & _).
  eexists _, w2, _, _. split; [exact Hrun2|].
  split; [rewrite Hscope; apply lookup_insert_eq|].
  split; [apply lookup_insert_eq|]. split.
  - rewrite (result_universal_transformer_gpt_model _ (world_after_setup w1')).
    pose proof (layers_from_consecutive (GPTModel.call_arguments self s v)
                  (next_obj (world_after_setup w1'))
                  (next_node (world_after_setup w1')))
      as (H0 & H1 & H2 & H3 & H4 & H5 & H6).
    assert (next_obj w1' <= next_obj (world_after_setup w1'))%nat
      by (unfold world_after_setup; cbn [next_obj];
          destruct (String.eqb (backend w1') "tensorflow"); lia).
    lia.
  - intros key Hkey.
    rewrite lookup_insert_ne by congruence.
    rewrite Hscope. apply lookup_insert_ne. congruence.
Qed.

Lemma stage_can_be_rerun_on_its_result_witness :
  exists scope1 w1 scope2 w2,
    GPTModel.run with_convolutions wikitext_scope (start "tensorflow") =
      Return scope1 w1 /\
    GPTModel.run with_convolutions scope1 w1 = Return scope2 w2.
Proof.
  destruct (GPTModel.run with_convolutions wikitext_scope (start "tensorflow"))
    as [err|scope1 w1] eqn:Hrun; [vm_compute in Hrun; discriminate|].
  destruct (stage_can_be_rerun_on_its_result
              with_convolutions wikitext_scope scope1 (start "tensorflow") w1 Hrun)
    as (scope2 & w2 & _ & _ & Hrun2 & _).
  exists scope1, w1, scope2, w2. split; [reflexivity | exact Hrun2].
Defined.
